(** * thermalmagic: the atmospheric column and the thermal ascent simulation

    A shallow embedding of the computational core of [src/thermal.js]
    (meteorological formulas, the [weatherStack] profile with its
    [getDataAt]/[setDataAt] operations, and [getThermalData]).

    Numbers.  JavaScript numbers are modelled as exact rationals ([Q]):
    rounding, infinities and NaN are outside the model.  [===] on numbers
    is [Qeq_bool], [<] is [Qltb].  Division by zero yields [0] in [Q]
    where JavaScript yields an infinity or NaN: a theorem that mentions a
    quotient speaks of the expression the code evaluates, and the
    scenarios evaluated at the end divide by no zero in what they state.
    What turns on two computed numbers being exactly equal cannot be read
    off the rationals; for that the simulation is embedded a second time,
    on IEEE 754 doubles ([Doubles], over [PrimFloat]).

    Exceptions.  Reading a property of [undefined] raises a [TypeError];
    functions that can raise return a [result].

    Library functions.  [Math.log] and [Math.pow] at a fractional exponent
    have no rational value; they are taken as parameters ([MathLib]). *)

From Stdlib Require Import QArith Qround Lqa List Sorted Lia ZArith Bool PrimFloat.
Import ListNotations.
Open Scope Q_scope.

(** ** Numbers *)

Definition Qltb (x y : Q) : bool := negb (Qle_bool y x).

(** ** Exceptions *)

Inductive exn : Type := TypeError.

Inductive result (A : Type) : Type :=
| Ok (a : A)
| Throw (e : exn).
Arguments Ok {A} a.
Arguments Throw {A} e.

Definition rbind {A B : Type} (m : result A) (k : A -> result B) : result B :=
  match m with
  | Ok a => k a
  | Throw e => Throw e
  end.

Declare Scope js_scope.
Delimit Scope js_scope with js.
Notation "x <- m ;; k" := (rbind m (fun x => k))
  (at level 61, m at next level, right associativity) : js_scope.
Open Scope js_scope.

(** ** Constants and globals (thermal.js, lines 5-44) *)

Definition defaultGroundTemperature : Q := 25.
Definition defaultTemperatureGradient : Q := 0.7.
Definition calculationsMaxHeight : Q := 10000.
Definition thermalInitialImpulse : Q := 1.8.
Definition thermalStagnantGradient : Q := -0.39.
Definition thermalImpulseTangentRatio : Q := 0.4.
Definition condensationCompensation : Q := 0.38.
Definition inversionCompensation : Q := 2.5.

(** The [var]s the core reads.  [groundPressure],
    [defaultGroundAbsoluteHumidity] and [solarStrength] are assigned from
    the settings form; [calculationResolution] keeps its initial value. *)
Record Globals : Type := mkGlobals {
  calculationResolution : Q;
  groundPressure : Q;
  defaultGroundAbsoluteHumidity : Q;
  solarStrength : Q
}.

Definition initialGlobals : Globals :=
  {| calculationResolution := 100;
     groundPressure := 101325.0;
     defaultGroundAbsoluteHumidity := 10.0;
     solarStrength := 0.8 |}.

(** The two [Math] functions of the host that are not rational. *)
Record MathLib : Type := mkMathLib {
  Math_log : Q -> Q;
  pow_fractional : Q -> Q -> Q
}.

(** ** Data *)

Module Meteo.
(** The objects built by [MeteoData] and [AutoMeteoData]. *)
Record t : Type := mk {
  alt : Q;
  temp : Q;
  wind : Q;
  humidity : Q;
  dewPoint : Q
}.
End Meteo.

(** The property names through which [getDataAt] and [setDataAt] are
    called ('temp', 'wind', 'humidity'; lines 225-250 and 527-529). *)
Inductive fieldName : Type := temp | wind | humidity.

(** [o[fieldName]] *)
Definition get_field (o : Meteo.t) (f : fieldName) : Q :=
  match f with
  | temp => Meteo.temp o
  | wind => Meteo.wind o
  | humidity => Meteo.humidity o
  end.

(** [o[fieldName] = value] *)
Definition set_field (o : Meteo.t) (f : fieldName) (value : Q) : Meteo.t :=
  match f with
  | temp => Meteo.mk (Meteo.alt o) value (Meteo.wind o) (Meteo.humidity o) (Meteo.dewPoint o)
  | wind => Meteo.mk (Meteo.alt o) (Meteo.temp o) value (Meteo.humidity o) (Meteo.dewPoint o)
  | humidity => Meteo.mk (Meteo.alt o) (Meteo.temp o) (Meteo.wind o) value (Meteo.dewPoint o)
  end.

Definition weatherStack : Type := list Meteo.t.

Module Level.
(** [prev] and [curr] of [getThermalData]. *)
Record t : Type := mk { alt : Q; temp : Q; relHumi : Q }.
End Level.

Module Point.
(** An entry of [data.strength]. *)
Record t : Type := mk { altitude : Q; impulse : Q }.
End Point.

Module Data.
(** The object returned by [getThermalData]. *)
Record t : Type := mk {
  thermalTop : Q;
  cloudBase : Q;
  strength : list Point.t
}.
End Data.

(** [Array.prototype.splice(start, 0, item)]: [item] is inserted so that it
    gets index [start]; an [undefined] start counts as 0 and a start beyond
    the end appends. *)
Definition splice {A : Type} (start : option nat) (item : A) (l : list A) : list A :=
  let n := match start with Some i => i | None => O end in
  firstn n l ++ item :: skipn n l.

Section Core.

Context (M : MathLib) (G : Globals).

(** ** Meteorological calculations (lines 124-147) *)

(** [Math.pow]: exact at an integer exponent, the host's function
    otherwise. *)
Definition Math_pow (x y : Q) : Q :=
  if Qeq_bool (inject_Z (Qfloor y)) y then Qpower x (Qfloor y)
  else pow_fractional M x y.

Definition getPressureAtAltitude (groundP altitude temperature : Q) : Q :=
  groundP * Math_pow (1 - (0.0065 * altitude) / (temperature + 0.0065 * altitude + 273.15)) 5.257.

Definition getSaturatedDensityFor (temperature : Q) : Q :=
  5.018 + 0.32321 * temperature + 8.1847 * 0.001 * temperature * temperature
  + 3.1243 * 0.0001 * Math_pow temperature 3.

Definition getRelativeHumidity (absolute altitude pressure temperature : Q) : Q :=
  absolute / getSaturatedDensityFor temperature.

Definition getDewPoint (temperature relativeHumidity : Q) : Q :=
  let H := ((Math_log M (relativeHumidity * 100) / Math_log M 10) - 2) / 0.4343
           + (17.62 * temperature) / (243.12 + temperature) in
  243.12 * H / (17.62 - H).

(** ** WeatherStack utilities (lines 153-259) *)

Definition MeteoData (altitude temperature wind humidity : Q) : Meteo.t :=
  Meteo.mk altitude temperature wind humidity
    (getDewPoint temperature
       (getRelativeHumidity humidity altitude
          (getPressureAtAltitude (groundPressure G) altitude temperature) temperature)).

(** The [for] loop of [getDataAt]: it either returns from inside the
    loop or falls out of it with [below] and [above] as they then are
    ([None] is [undefined]). *)
Inductive scanned : Type :=
| Returned (v : Q)
| FellThrough (below above : option Meteo.t).

Fixpoint getDataAt_loop (altitude : Q) (f : fieldName) (rest : list Meteo.t)
         (below : option Meteo.t) : scanned :=
  match rest with
  | [] => FellThrough below None
  | curr :: rest' =>
      if Qeq_bool (Meteo.alt curr) altitude then Returned (get_field curr f)
      else if Qltb (Meteo.alt curr) altitude then getDataAt_loop altitude f rest' (Some curr)
      else if Qltb altitude (Meteo.alt curr) then FellThrough below (Some curr)
      else getDataAt_loop altitude f rest' below
  end.

Definition getDataAt (altitude : Q) (f : fieldName) (ws : weatherStack) : result Q :=
  match getDataAt_loop altitude f ws None with
  | Returned v => Ok v
  | FellThrough (Some below) (Some above) =>
      Ok (get_field below f
          + ((altitude - Meteo.alt below) / (Meteo.alt above - Meteo.alt below))
            * (get_field above f - get_field below f))
  | FellThrough _ _ => Throw TypeError
  end.

Definition getTemperatureAt (altitude : Q) := getDataAt altitude temp.
Definition getWindAt (altitude : Q) := getDataAt altitude wind.
Definition getAbsoluteHumidityAt (altitude : Q) := getDataAt altitude humidity.

Definition getDewPointAt (altitude : Q) (ws : weatherStack) : result Q :=
  temperature <- getTemperatureAt altitude ws ;;
  ah <- getAbsoluteHumidityAt altitude ws ;;
  Ok (getDewPoint temperature
        (getRelativeHumidity ah altitude
           (getPressureAtAltitude (groundPressure G) altitude temperature) temperature)).

Definition AutoMeteoData (altitude : Q) (ws : weatherStack) : result Meteo.t :=
  temp' <- getTemperatureAt altitude ws ;;
  wind' <- getWindAt altitude ws ;;
  humidity' <- getAbsoluteHumidityAt altitude ws ;;
  dewPoint' <- getDewPointAt altitude ws ;;
  Ok (Meteo.mk altitude temp' wind' humidity' dewPoint').

(** The [for] loop of [setDataAt], at index [i] with the elements from
    [i] on in [rest]: [inl] is the stack tail after the in-place
    assignment and [return]; [inr] is [below] when the loop is left
    without returning. *)
Fixpoint setDataAt_loop (altitude : Q) (f : fieldName) (value : Q)
         (rest : list Meteo.t) (i : nat) (below : option nat)
  : list Meteo.t + option nat :=
  match rest with
  | [] => inr below
  | curr :: rest' =>
      if Qeq_bool (Meteo.alt curr) altitude then inl (set_field curr f value :: rest')
      else if Qltb (Meteo.alt curr) altitude then
        match setDataAt_loop altitude f value rest' (S i) (Some i) with
        | inl done => inl (curr :: done)
        | inr b => inr b
        end
      else if Qltb altitude (Meteo.alt curr) then inr below
      else
        match setDataAt_loop altitude f value rest' (S i) below with
        | inl done => inl (curr :: done)
        | inr b => inr b
        end
  end.

(** [setDataAt] acts on the global [weatherStack]: the outcome comes
    with the stack it leaves behind. *)
Definition setDataAt (altitude : Q) (f : fieldName) (value : Q) (ws : weatherStack)
  : result unit * weatherStack :=
  match setDataAt_loop altitude f value ws O None with
  | inl ws' => (Ok tt, ws')
  | inr below =>
      match AutoMeteoData altitude ws with
      | Throw e => (Throw e, ws)
      | Ok newField => (Ok tt, splice below (set_field newField f value) ws)
      end
  end.

Definition setTemperatureAt (altitude temperature : Q) := setDataAt altitude temp temperature.
Definition setWindAt (altitude wind' : Q) := setDataAt altitude wind wind'.
Definition setAbsoluteHumidityAt (altitude ah : Q) := setDataAt altitude humidity ah.

(** ** The thermal simulation (lines 261-302) *)

(** The variables the loop of [getThermalData] works on. *)
Record loopState : Type := mkLoopState {
  data : Data.t;
  impulse : Q;
  prev : Level.t
}.

(** One pass through the body of the [for] loop at [altitude]; the flag
    tells whether the pass ended in [break]. *)
Definition body (ws : weatherStack) (altitude : Q) (st : loopState)
  : result (loopState * bool) :=
  temp' <- getTemperatureAt altitude ws ;;
  let curr :=
    Level.mk altitude temp'
      (getRelativeHumidity (defaultGroundAbsoluteHumidity G) altitude
         (getPressureAtAltitude (groundPressure G) altitude temp') temp') in
  let gradient :=
    (Level.temp curr - Level.temp (prev st)) * (calculationResolution G / 100.0) in
  let cloudBase' :=
    if Qle_bool 1.0 (Level.relHumi curr)
       && Qeq_bool (Data.cloudBase (data st)) calculationsMaxHeight
    then Level.alt (prev st)
         + ((1.0 - Level.relHumi (prev st))
            / (Level.relHumi curr - Level.relHumi (prev st)))
           * (Level.alt curr - Level.alt (prev st))
    else Data.cloudBase (data st) in
  let compensationOffset :=
    if Qltb altitude cloudBase' then 0.0
    else (Level.alt curr - Level.alt (prev st)) * (condensationCompensation / 100.0) in
  let compensationMulti :=
    if Qltb gradient 0.0 then 1.0 else inversionCompensation in
  let impulse' :=
    impulse st
    + ((thermalStagnantGradient - gradient) * thermalImpulseTangentRatio
       * compensationMulti - compensationOffset) in
  let strength' :=
    Data.strength (data st) ++ [Point.mk (Level.alt curr) impulse'] in
  if Qltb impulse' 0
  then Ok (mkLoopState (Data.mk altitude cloudBase' strength') impulse' (prev st), true)
  else Ok (mkLoopState (Data.mk (Data.thermalTop (data st)) cloudBase' strength')
             impulse' curr, false).

(** The [for] loop from its test at [altitude] on.  [fuel] bounds the
    number of passes; [None] means the bound was reached with the loop
    still running. *)
Fixpoint loop (fuel : nat) (ws : weatherStack) (altitude : Q) (st : loopState)
  : option (result Data.t) :=
  if Qltb altitude calculationsMaxHeight then
    match fuel with
    | O => None
    | S fuel' =>
        match body ws altitude st with
        | Throw e => Some (Throw e)
        | Ok (st', true) => Some (Ok (data st'))
        | Ok (st', false) => loop fuel' ws (altitude + calculationResolution G) st'
        end
    end
  else Some (Ok (data st)).

Definition initialImpulse : Q :=
  (solarStrength G * 1.2 - 0.1) * thermalInitialImpulse.

(** The state in which the loop is entered (lines 266-269). *)
Definition enter (ws : weatherStack) : result loopState :=
  t0 <- getTemperatureAt 0.0 ws ;;
  t0' <- getTemperatureAt 0.0 ws ;;
  Ok (mkLoopState
        (Data.mk calculationsMaxHeight calculationsMaxHeight [])
        initialImpulse
        (Level.mk 0.0 t0
           (getRelativeHumidity (defaultGroundAbsoluteHumidity G) 0.0
              (groundPressure G) t0'))).

Definition getThermalData_within (fuel : nat) (ws : weatherStack)
  : option (result Data.t) :=
  match enter ws with
  | Throw e => Some (Throw e)
  | Ok st => loop fuel ws (calculationResolution G) st
  end.

(** Passes that suffice when [calculationResolution] is positive: the
    altitude of pass [k] is [k * calculationResolution]. *)
Definition passes : nat :=
  Z.to_nat (Qceiling (calculationsMaxHeight / calculationResolution G)).

Definition getThermalData (ws : weatherStack) : option (result Data.t) :=
  getThermalData_within passes ws.

(** The loop as a step relation: [runs ws altitude st pts d] when the
    loop, at its test with [altitude] and the variables [st], pushes the
    entries [pts] in its remaining passes and leaves [d] in [data]. *)
Inductive runs (ws : weatherStack) : Q -> loopState -> list Point.t -> Data.t -> Prop :=
| runs_exit altitude st :
    calculationsMaxHeight <= altitude ->
    runs ws altitude st [] (data st)
| runs_break altitude st st' :
    altitude < calculationsMaxHeight ->
    body ws altitude st = Ok (st', true) ->
    runs ws altitude st [Point.mk altitude (impulse st')] (data st')
| runs_next altitude st st' pts d :
    altitude < calculationsMaxHeight ->
    body ws altitude st = Ok (st', false) ->
    runs ws (altitude + calculationResolution G) st' pts d ->
    runs ws altitude st (Point.mk altitude (impulse st') :: pts) d.

(** *** The quantities of one pass, named

    [p] is [prev], [c] is [curr], [cb] is [data.cloudBase]. *)

(** [curr] at an altitude where the temperature read gave [t]. *)
Definition levelOf (altitude t : Q) : Level.t :=
  Level.mk altitude t
    (getRelativeHumidity (defaultGroundAbsoluteHumidity G) altitude
       (getPressureAtAltitude (groundPressure G) altitude t) t).

(** The altitude between [p] and [c] at which the relative humidity,
    taken as linear, is 1.0. *)
Definition crossing (p c : Level.t) : Q :=
  Level.alt p
  + ((1.0 - Level.relHumi p) / (Level.relHumi c - Level.relHumi p))
    * (Level.alt c - Level.alt p).

Definition saturated (c : Level.t) : bool := Qle_bool 1.0 (Level.relHumi c).

Definition cloudBase_after (cb : Q) (p c : Level.t) : Q :=
  if saturated c && Qeq_bool cb calculationsMaxHeight then crossing p c else cb.

Definition gradient (p c : Level.t) : Q :=
  (Level.temp c - Level.temp p) * (calculationResolution G / 100.0).

Definition compensationMulti (p c : Level.t) : Q :=
  if Qltb (gradient p c) 0.0 then 1.0 else inversionCompensation.

Definition compensationOffset (cb : Q) (p c : Level.t) : Q :=
  if Qltb (Level.alt c) cb then 0.0
  else (Level.alt c - Level.alt p) * (condensationCompensation / 100.0).

Definition increment (cb : Q) (p c : Level.t) : Q :=
  (thermalStagnantGradient - gradient p c) * thermalImpulseTangentRatio
  * compensationMulti p c - compensationOffset cb p c.

(** The temperature read at an altitude (0 where the read raises; every
    pass of a run that returns has read its temperature). *)
Definition tempAt (ws : weatherStack) (altitude : Q) : Q :=
  match getTemperatureAt altitude ws with
  | Ok t => t
  | Throw _ => 0
  end.

Definition levelAt (ws : weatherStack) (altitude : Q) : Level.t :=
  levelOf altitude (tempAt ws altitude).

(** The first pass, among those at the given altitudes, whose level is
    saturated, with the level before it. *)
Fixpoint first_saturation (ws : weatherStack) (p : Level.t) (altitudes : list Q)
  : option (Level.t * Level.t) :=
  match altitudes with
  | [] => None
  | a :: rest =>
      if saturated (levelAt ws a) then Some (p, levelAt ws a)
      else first_saturation ws (levelAt ws a) rest
  end.

(** *** The impulse, pass by pass

    The recurrence that the specification gives for the impulse (4.3,
    steps 1 and 3), as functions of the number of passes; they are compared
    with the loop in [impulse_recurrence]. *)

(** The loop variable in pass [k], counted from 1: [calculationResolution]
    in the first pass and [calculationResolution] more in every further
    one.  For 0 it is the altitude of the ground level, [0.0]. *)
Fixpoint altitudeOfPass (k : nat) : Q :=
  match k with
  | O => 0.0
  | S k' =>
      match k' with
      | O => calculationResolution G
      | S _ => altitudeOfPass k' + calculationResolution G
      end
  end.

(** [curr] of pass [k]; the ground level for 0. *)
Definition levelOfPass (ws : weatherStack) (k : nat) : Level.t :=
  levelAt ws (altitudeOfPass k).

(** [data.cloudBase] after [k] passes. *)
Fixpoint cloudBaseAfter (ws : weatherStack) (k : nat) : Q :=
  match k with
  | O => calculationsMaxHeight
  | S k' => cloudBase_after (cloudBaseAfter ws k') (levelOfPass ws k') (levelOfPass ws k)
  end.

(** [impulse] after [k] passes: [initialImpulse] to begin with, and in
    pass [k] the [increment] between the levels of passes [k - 1] and [k],
    with the cloud base as it is after the detection of pass [k]. *)
Fixpoint impulseAfter (ws : weatherStack) (k : nat) : Q :=
  match k with
  | O => initialImpulse
  | S k' =>
      impulseAfter ws k'
      + increment (cloudBaseAfter ws k) (levelOfPass ws k') (levelOfPass ws k)
  end.

End Core.

(** ** Display helpers (lines 60-113) and the gauges (lines 474-588) *)

Definition minTemp : Q := -10.0.
Definition maxBlue : Q := 190.
Definition maxTemp : Q := 37.0.
Definition maxRed : Q := 255.

(** The two display [var]s the gauges depend on. *)
Record Display : Type := mkDisplay {
  maxShownAltitude : Q;
  altimeterResolution : Q
}.

Definition initialDisplay : Display :=
  {| maxShownAltitude := 6000; altimeterResolution := 2000 |}.

(** [Math.round]: the nearest integer, a tie going up. *)
Definition Math_round (x : Q) : Q := inject_Z (Qfloor (x + 0.5)).

Module Rgb.
Record t : Type := mk { r : Q; g : Q; b : Q }.
End Rgb.

Definition getRgbForTemp (temp : Q) : Rgb.t :=
  if Qltb temp minTemp then Rgb.mk 0 0 maxBlue
  else if Qltb maxTemp temp then Rgb.mk maxRed 0 0
  else
    let maxTempDiff := maxTemp - minTemp in
    let red := ((temp - minTemp) * maxRed) / maxTempDiff in
    let blue := ((maxTemp - temp) * maxBlue) / maxTempDiff in
    Rgb.mk (Math_round red) 0 (Math_round blue).

Definition getRgbForHumi (humi : Q) : Rgb.t :=
  if Qltb humi 0 then Rgb.mk 255 255 255
  else if Qltb 100 humi then Rgb.mk 0 0 255
  else Rgb.mk 0 0 (Math_round ((humi * 255) / 100)).


Section Gauges.

Context (M : MathLib) (G : Globals) (D : Display).

Definition roundToDecim (num decim : Q) : Q :=
  Math_round ((num + Math_pow M 10 (- decim * 2)) * Math_pow M 10 decim)
  / Math_pow M 10 decim.

Definition measureLineCnt : Q := maxShownAltitude D / altimeterResolution D.

(** The sample that pass [i] of the loop of [reCreateGauges] pushes (the
    page elements it builds are left out). *)
Definition gauge (ws : weatherStack) (i : Z) : result Meteo.t :=
  let altitude := Math_round (inject_Z i * altimeterResolution D) in
  t <- getTemperatureAt altitude ws ;;
  let temperature := roundToDecim t 2 in
  w <- getWindAt altitude ws ;;
  let wind' := roundToDecim w 2 in
  h <- getAbsoluteHumidityAt altitude ws ;;
  let humidity' := roundToDecim h 2 in
  Ok (MeteoData M G altitude temperature wind' humidity').

(** The [for] loop of [reCreateGauges] from its test at [i] on; [fuel]
    bounds the number of passes as in [loop]. *)
Fixpoint reCreateGauges_loop (fuel : nat) (ws : weatherStack) (i : Z)
         (newWeatherStack : list Meteo.t) : option (result (list Meteo.t)) :=
  if Qle_bool (inject_Z i) measureLineCnt then
    match fuel with
    | O => None
    | S fuel' =>
        match gauge ws i with
        | Throw e => Some (Throw e)
        | Ok m => reCreateGauges_loop fuel' ws (i + 1) (newWeatherStack ++ [m])
        end
    end
  else Some (Ok newWeatherStack).

(** [l[l.length - 1]]; [None] is [undefined]. *)
Definition topmost (l : list Meteo.t) : option Meteo.t :=
  match l with
  | [] => None
  | x :: rest => Some (last rest x)
  end.

(** The loop and what follows it: the ceiling sample is read from the old
    stack, and the new stack replaces the old one at the very end. *)
Definition reCreateGauges_within (fuel : nat) (ws : weatherStack)
  : option (result unit * weatherStack) :=
  match reCreateGauges_loop fuel ws 0 [] with
  | None => None
  | Some (Throw e) => Some (Throw e, ws)
  | Some (Ok newWeatherStack) =>
      match topmost newWeatherStack with
      | None => Some (Throw TypeError, ws)
      | Some topmostLevel =>
          if Qltb (Meteo.alt topmostLevel) calculationsMaxHeight then
            match AutoMeteoData M G calculationsMaxHeight ws with
            | Throw e => Some (Throw e, ws)
            | Ok ceiling => Some (Ok tt, newWeatherStack ++ [ceiling])
            end
          else Some (Ok tt, newWeatherStack)
      end
  end.

(** Passes that suffice: pass [i] runs while [i <= measureLineCnt]. *)
Definition gaugePasses : nat := Z.to_nat (Qfloor measureLineCnt + 1).

Definition reCreateGauges (ws : weatherStack) : option (result unit * weatherStack) :=
  reCreateGauges_within gaugePasses ws.

End Gauges.

(** ** The simulation on doubles

    The thermal simulation once more, on the numbers the program holds:
    JavaScript numbers are IEEE 754 binary64 values, here [PrimFloat]'s
    [float], with the same rounding after every operation, signed zeros,
    infinities and NaN.  [===] on numbers is [=?], [<] is [<?] and
    [x >= y] is [y <=? x]; every comparison with NaN is false.  This part
    covers what [getThermalData] reaches: the constants, the saturation
    fit, [getDataAt] and the loop.  [Math.pow] is a parameter. *)

Module Doubles.

#[local] Set Warnings "-inexact-float".
#[local] Open Scope float_scope.

Definition calculationsMaxHeight : float := 10000.
Definition thermalInitialImpulse : float := 1.8.
Definition thermalStagnantGradient : float := -0.39.
Definition thermalImpulseTangentRatio : float := 0.4.
Definition condensationCompensation : float := 0.38.
Definition inversionCompensation : float := 2.5.

Record Globals : Type := mkGlobals {
  calculationResolution : float;
  groundPressure : float;
  defaultGroundAbsoluteHumidity : float;
  solarStrength : float
}.

Module Meteo.
Record t : Type := mk {
  alt : float;
  temp : float;
  wind : float;
  humidity : float;
  dewPoint : float
}.
End Meteo.

Definition get_field (o : Meteo.t) (f : fieldName) : float :=
  match f with
  | temp => Meteo.temp o
  | wind => Meteo.wind o
  | humidity => Meteo.humidity o
  end.

Definition weatherStack : Type := list Meteo.t.

Module Level.
Record t : Type := mk { alt : float; temp : float; relHumi : float }.
End Level.

Module Point.
Record t : Type := mk { altitude : float; impulse : float }.
End Point.

Module Data.
Record t : Type := mk {
  thermalTop : float;
  cloudBase : float;
  strength : list Point.t
}.
End Data.

Section Core.

Context (Math_pow : float -> float -> float) (G : Globals).

Definition getPressureAtAltitude (groundP altitude temperature : float) : float :=
  groundP * Math_pow (1 - (0.0065 * altitude) / (temperature + 0.0065 * altitude + 273.15)) 5.257.

Definition getSaturatedDensityFor (temperature : float) : float :=
  5.018 + 0.32321 * temperature + 8.1847 * 0.001 * temperature * temperature
  + 3.1243 * 0.0001 * Math_pow temperature 3.

Definition getRelativeHumidity (absolute altitude pressure temperature : float) : float :=
  absolute / getSaturatedDensityFor temperature.

Inductive scanned : Type :=
| Returned (v : float)
| FellThrough (below above : option Meteo.t).

(** The last branch is the one taken when neither comparison holds: an
    altitude that is NaN. *)
Fixpoint getDataAt_loop (altitude : float) (f : fieldName) (rest : list Meteo.t)
         (below : option Meteo.t) : scanned :=
  match rest with
  | [] => FellThrough below None
  | curr :: rest' =>
      if Meteo.alt curr =? altitude then Returned (get_field curr f)
      else if Meteo.alt curr <? altitude then getDataAt_loop altitude f rest' (Some curr)
      else if altitude <? Meteo.alt curr then FellThrough below (Some curr)
      else getDataAt_loop altitude f rest' below
  end.

Definition getDataAt (altitude : float) (f : fieldName) (ws : weatherStack) : result float :=
  match getDataAt_loop altitude f ws None with
  | Returned v => Ok v
  | FellThrough (Some below) (Some above) =>
      Ok (get_field below f
          + ((altitude - Meteo.alt below) / (Meteo.alt above - Meteo.alt below))
            * (get_field above f - get_field below f))
  | FellThrough _ _ => Throw TypeError
  end.

Definition getTemperatureAt (altitude : float) := getDataAt altitude temp.

Record loopState : Type := mkLoopState {
  data : Data.t;
  impulse : float;
  prev : Level.t
}.

Definition body (ws : weatherStack) (altitude : float) (st : loopState)
  : result (loopState * bool) :=
  temp' <- getTemperatureAt altitude ws ;;
  let curr :=
    Level.mk altitude temp'
      (getRelativeHumidity (defaultGroundAbsoluteHumidity G) altitude
         (getPressureAtAltitude (groundPressure G) altitude temp') temp') in
  let gradient :=
    (Level.temp curr - Level.temp (prev st)) * (calculationResolution G / 100.0) in
  let cloudBase' :=
    if (1.0 <=? Level.relHumi curr)
       && (Data.cloudBase (data st) =? calculationsMaxHeight)
    then Level.alt (prev st)
         + ((1.0 - Level.relHumi (prev st))
            / (Level.relHumi curr - Level.relHumi (prev st)))
           * (Level.alt curr - Level.alt (prev st))
    else Data.cloudBase (data st) in
  let compensationOffset :=
    if altitude <? cloudBase' then 0.0
    else (Level.alt curr - Level.alt (prev st)) * (condensationCompensation / 100.0) in
  let compensationMulti :=
    if gradient <? 0.0 then 1.0 else inversionCompensation in
  let impulse' :=
    impulse st
    + ((thermalStagnantGradient - gradient) * thermalImpulseTangentRatio
       * compensationMulti - compensationOffset) in
  let strength' :=
    Data.strength (data st) ++ [Point.mk (Level.alt curr) impulse'] in
  if impulse' <? 0
  then Ok (mkLoopState (Data.mk altitude cloudBase' strength') impulse' (prev st), true)
  else Ok (mkLoopState (Data.mk (Data.thermalTop (data st)) cloudBase' strength')
             impulse' curr, false).

Fixpoint loop (fuel : nat) (ws : weatherStack) (altitude : float) (st : loopState)
  : option (result Data.t) :=
  if altitude <? calculationsMaxHeight then
    match fuel with
    | O => None
    | S fuel' =>
        match body ws altitude st with
        | Throw e => Some (Throw e)
        | Ok (st', true) => Some (Ok (data st'))
        | Ok (st', false) => loop fuel' ws (altitude + calculationResolution G) st'
        end
    end
  else Some (Ok (data st)).

Definition enter (ws : weatherStack) : result loopState :=
  t0 <- getTemperatureAt 0.0 ws ;;
  t0' <- getTemperatureAt 0.0 ws ;;
  Ok (mkLoopState
        (Data.mk calculationsMaxHeight calculationsMaxHeight [])
        ((solarStrength G * 1.2 - 0.1) * thermalInitialImpulse)
        (Level.mk 0.0 t0
           (getRelativeHumidity (defaultGroundAbsoluteHumidity G) 0.0
              (groundPressure G) t0'))).

Definition getThermalData_within (fuel : nat) (ws : weatherStack)
  : option (result Data.t) :=
  match enter ws with
  | Throw e => Some (Throw e)
  | Ok st => loop fuel ws (calculationResolution G) st
  end.

Definition levelOf (altitude t : float) : Level.t :=
  Level.mk altitude t
    (getRelativeHumidity (defaultGroundAbsoluteHumidity G) altitude
       (getPressureAtAltitude (groundPressure G) altitude t) t).

Definition crossing (p c : Level.t) : float :=
  Level.alt p
  + ((1.0 - Level.relHumi p) / (Level.relHumi c - Level.relHumi p))
    * (Level.alt c - Level.alt p).

Definition saturated (c : Level.t) : bool := 1.0 <=? Level.relHumi c.

End Core.

(** A stand-in for [Math.pow] on which the scenario is evaluated: at the
    exponent 3 the product [x * x * x], which is [Math.pow(x, 3)] wherever
    the cube of [x] is a double. *)
Definition products (x y : float) : float :=
  if y =? 3 then x * x * x else 1.

(** Saturated air at the ground and a little less saturated air 100 m up,
    with a humidity at which the crossing altitude computed in the first
    pass is the ceiling itself.  All three temperatures read have a cube
    that is a double.  The stored dew points are not read by the
    simulation and are left as NaN. *)
Definition fogGlobals : Globals :=
  {| calculationResolution := 100;
     groundPressure := 101325.0;
     defaultGroundAbsoluteHumidity := 9.9705528715635;
     solarStrength := 0.5 |}.

Definition fogStack : weatherStack :=
  [ Meteo.mk 0 3 0.0 5.0 nan;
    Meteo.mk 100 3.0625 0.0 5.0 nan;
    Meteo.mk 200 3 0.0 5.0 nan;
    Meteo.mk calculationsMaxHeight (-20.0) 0.0 0.5 nan ].

End Doubles.


(** ** Scenarios *)

(** A stand-in for [Math.log] on which scenarios are evaluated.  The code
    uses [Math.log] only in the quotient [Math.log(x) / Math.log(10)]; the
    stand-in has the decimal logarithm at 1, 10 and 100, where that
    quotient is rational. *)
Definition log_decades (x : Q) : Q :=
  if Qeq_bool x 100 then 2 else if Qeq_bool x 10 then 1 else 0.

Definition decades : MathLib :=
  {| Math_log := log_decades; pow_fractional := fun _ _ => 1 |}.

(** The stack that the page is seeded with (lines 837-839). *)
Definition initialStack (M : MathLib) (G : Globals) : weatherStack :=
  [ MeteoData M G 0 defaultGroundTemperature 0.0 (defaultGroundAbsoluteHumidity G);
    MeteoData M G 9500
      (defaultGroundTemperature - (9500 / 100.0) * defaultTemperatureGradient) 0.0 1.0;
    MeteoData M G calculationsMaxHeight (-20.0) 0.0 0.5 ].

(** A dry column with a lapse rate of 0.75 degrees per 100 m all the way
    up: the thermal never stops. *)
Definition dryGlobals : Globals :=
  {| calculationResolution := 100;
     groundPressure := 101325.0;
     defaultGroundAbsoluteHumidity := 0;
     solarStrength := 0.8 |}.

Definition unstableStack (M : MathLib) : weatherStack :=
  [ MeteoData M dryGlobals 0 25 0.0 10.0;
    MeteoData M dryGlobals calculationsMaxHeight (-50) 0.0 0.5 ].

(** A dry column in which the impulse is exactly zero after the first
    pass: 0.765 to start with, and an inversion of 0.375 degrees over the
    first 100 m that takes 0.765 away. *)
Definition calmGlobals : Globals :=
  {| calculationResolution := 100;
     groundPressure := 101325.0;
     defaultGroundAbsoluteHumidity := 0;
     solarStrength := 0.4375 |}.

Definition calmStack (M : MathLib) : weatherStack :=
  [ MeteoData M calmGlobals 0 0 0.0 1.0;
    MeteoData M calmGlobals 100 0.375 0.0 1.0;
    MeteoData M calmGlobals 200 1.375 0.0 1.0;
    MeteoData M calmGlobals calculationsMaxHeight (-20.0) 0.0 0.5 ].

(** Saturated air at 0 degrees on the ground (5.018 g/m3). *)
Definition saturatedStack (M : MathLib) : weatherStack :=
  [ MeteoData M initialGlobals 0 0 0.0 5.018;
    MeteoData M initialGlobals calculationsMaxHeight (-20.0) 0.0 0.5 ].

(** [returned r P]: the run [r] returned a [data] object, and [P] holds
    of it. *)
Definition returned (r : option (result Data.t)) (P : Data.t -> Prop) : Prop :=
  match r with
  | Some (Ok d) => P d
  | _ => False
  end.

Definition has_returned (r : option (result Data.t)) : bool :=
  match r with
  | Some (Ok _) => true
  | _ => false
  end.

(** An entry whose impulse is below zero. *)
Definition negative (p : Point.t) : bool := Qltb (Point.impulse p) 0.

(** The stack strictly increasing by altitude. *)
Definition ascending (ws : weatherStack) : Prop :=
  StronglySorted (fun a b => Meteo.alt a < Meteo.alt b) ws.



(** Display settings whose altitude range is negative. *)
Definition negativeDisplay : Display :=
  {| maxShownAltitude := -6000; altimeterResolution := 2000 |}.

(** * Properties *)

(** ** Comparisons *)

Lemma Qltb_lt (x y : Q) : Qltb x y = true <-> x < y.
Proof.
  unfold Qltb. rewrite negb_true_iff. split; intro H.
  - apply Qnot_le_lt. intro Hle. apply Qle_bool_iff in Hle. congruence.
  - destruct (Qle_bool y x) eqn:E; [|reflexivity].
    apply Qle_bool_iff in E. lra.
Qed.

Lemma Qltb_ge (x y : Q) : Qltb x y = false <-> y <= x.
Proof.
  unfold Qltb. rewrite negb_false_iff. apply Qle_bool_iff.
Qed.

Lemma Qeq_bool_false (x y : Q) : Qeq_bool x y = false <-> ~ x == y.
Proof.
  split.
  - apply Qeq_bool_neq.
  - intro H. destruct (Qeq_bool x y) eqn:E; [|reflexivity].
    apply Qeq_bool_iff in E. contradiction.
Qed.

Lemma Qinv_neg (d : Q) : d < 0 -> / d < 0.
Proof.
  intros Hd. assert (Hpos : 0 < / - d) by (apply Qinv_lt_0_compat; lra).
  assert (E : / - d == - / d) by (field; lra).
  rewrite E in Hpos. lra.
Qed.

(** Decide the comparisons on which the goal branches, keeping each
    outcome as an order fact and closing the impossible branches. *)
Ltac order_facts :=
  repeat match goal with
    | H : Qeq_bool _ _ = true |- _ => apply Qeq_bool_iff in H
    | H : Qeq_bool _ _ = false |- _ => apply Qeq_bool_false in H
    | H : Qltb _ _ = true |- _ => apply Qltb_lt in H
    | H : Qltb _ _ = false |- _ => apply Qltb_ge in H
    | H : Qle_bool _ _ = true |- _ => apply Qle_bool_iff in H
    end.

Ltac branch :=
  match goal with
  | |- context [Qeq_bool ?a ?b] => destruct (Qeq_bool a b) eqn:?
  | |- context [Qltb ?a ?b] => destruct (Qltb a b) eqn:?
  end; order_facts; try lra.

(** ** Reading the profile *)

Section Reading.

Variables (altitude : Q) (f : fieldName).

Lemma getDataAt_loop_exact (ws : weatherStack) (s : Meteo.t) :
  ascending ws -> In s ws -> Meteo.alt s == altitude ->
  forall below, getDataAt_loop altitude f ws below = Returned (get_field s f).
Proof.
  induction 1 as [|c rest Hrest IH Hc]; intros Hin Heq below.
  - destruct Hin.
  - simpl. destruct Hin as [->|Hin].
    + apply Qeq_bool_iff in Heq. rewrite Heq. reflexivity.
    + rewrite Forall_forall in Hc. specialize (Hc s Hin).
      repeat branch. apply IH; assumption.
Qed.

Lemma getDataAt_loop_between (l1 l2 : list Meteo.t) (lo hi : Meteo.t) :
  ascending (l1 ++ lo :: hi :: l2) ->
  Meteo.alt lo < altitude -> altitude < Meteo.alt hi ->
  forall below,
    getDataAt_loop altitude f (l1 ++ lo :: hi :: l2) below
    = FellThrough (Some lo) (Some hi).
Proof.
  intros Hs Hlo Hhi. induction l1 as [|c l1 IH]; intros below; simpl.
  - repeat branch. reflexivity.
  - inversion Hs as [|? ? Hrest Hc]; subst.
    rewrite Forall_forall in Hc.
    assert (Meteo.alt c < Meteo.alt lo) by (apply Hc, in_or_app; right; left; reflexivity).
    repeat branch. apply IH; assumption.
Qed.

Lemma getDataAt_loop_all_above (ws : weatherStack) :
  Forall (fun s => altitude < Meteo.alt s) ws ->
  forall below, exists above, getDataAt_loop altitude f ws below = FellThrough below above.
Proof.
  intros H below. destruct H as [|c rest Hc _]; simpl.
  - eexists; reflexivity.
  - repeat branch. eexists; reflexivity.
Qed.

Lemma getDataAt_loop_all_below (ws : weatherStack) :
  Forall (fun s => Meteo.alt s < altitude) ws ->
  forall below, exists below', getDataAt_loop altitude f ws below = FellThrough below' None.
Proof.
  induction 1 as [|c rest Hc _ IH]; intros below; simpl.
  - eexists; reflexivity.
  - repeat branch. apply IH.
Qed.

(** A read succeeds at an altitude that has a sample at or below it and
    a sample at or above it. *)
Lemma getDataAt_loop_covered (ws : weatherStack) :
  ascending ws ->
  (exists s, In s ws /\ altitude <= Meteo.alt s) ->
  forall below,
    below <> None \/ (exists s, In s ws /\ Meteo.alt s <= altitude) ->
    (exists v, getDataAt_loop altitude f ws below = Returned v)
    \/ (exists lo hi, getDataAt_loop altitude f ws below
                      = FellThrough (Some lo) (Some hi)).
Proof.
  induction 1 as [|c rest Hrest IH Hc]; intros (hi & Hin & Hhi) below Hlo.
  - destruct Hin.
  - rewrite Forall_forall in Hc. simpl. repeat branch.
    + left. eexists; reflexivity.
    + apply IH.
      * destruct Hin as [->|Hin]; [lra|]. exists hi. split; assumption.
      * left. discriminate.
    + right. destruct below as [lo|].
      * do 2 eexists; reflexivity.
      * destruct Hlo as [Hlo|(lo & [->|Hlo] & Hle)]; [contradiction|lra|].
        specialize (Hc lo Hlo). lra.
Qed.

Lemma getDataAt_covered (ws : weatherStack) :
  ascending ws ->
  (exists s, In s ws /\ Meteo.alt s <= altitude) ->
  (exists s, In s ws /\ altitude <= Meteo.alt s) ->
  exists v, getDataAt altitude f ws = Ok v.
Proof.
  intros Hs Hlo Hhi. unfold getDataAt.
  destruct (getDataAt_loop_covered ws Hs Hhi None (or_intror Hlo))
    as [(v & ->)|(lo & hi & ->)]; eexists; reflexivity.
Qed.

Lemma getDataAt_outside (ws : weatherStack) :
  Forall (fun s => altitude < Meteo.alt s) ws
  \/ Forall (fun s => Meteo.alt s < altitude) ws ->
  getDataAt altitude f ws = Throw TypeError.
Proof.
  unfold getDataAt. intros [H|H].
  - destruct (getDataAt_loop_all_above ws H None) as [above ->]. reflexivity.
  - destruct (getDataAt_loop_all_below ws H None) as [below ->].
    destruct below; reflexivity.
Qed.

End Reading.

(** ** Writing the profile *)

Section Writing.

Variables (altitude : Q) (f : fieldName) (value : Q).

Lemma setDataAt_loop_exact (l1 l2 : list Meteo.t) (s : Meteo.t) :
  ascending (l1 ++ s :: l2) -> Meteo.alt s == altitude ->
  forall i below,
    setDataAt_loop altitude f value (l1 ++ s :: l2) i below
    = inl (l1 ++ set_field s f value :: l2).
Proof.
  intros Hs Heq. induction l1 as [|c l1 IH]; intros i below; simpl.
  - apply Qeq_bool_iff in Heq. rewrite Heq. reflexivity.
  - inversion Hs as [|? ? Hrest Hc]; subst.
    rewrite Forall_forall in Hc.
    assert (Meteo.alt c < Meteo.alt s) by (apply Hc, in_or_app; right; left; reflexivity).
    repeat branch. rewrite IH by assumption. reflexivity.
Qed.

Lemma setDataAt_loop_between (l1 l2 : list Meteo.t) (lo hi : Meteo.t) :
  ascending (l1 ++ lo :: hi :: l2) ->
  Meteo.alt lo < altitude -> altitude < Meteo.alt hi ->
  forall i below,
    setDataAt_loop altitude f value (l1 ++ lo :: hi :: l2) i below
    = inr (Some (i + length l1)%nat).
Proof.
  intros Hs Hlo Hhi. induction l1 as [|c l1 IH]; intros i below; simpl.
  - repeat branch. rewrite Nat.add_0_r. reflexivity.
  - inversion Hs as [|? ? Hrest Hc]; subst.
    rewrite Forall_forall in Hc.
    assert (Meteo.alt c < Meteo.alt lo) by (apply Hc, in_or_app; right; left; reflexivity).
    repeat branch. rewrite IH by assumption.
    rewrite Nat.add_succ_r. reflexivity.
Qed.

Lemma setDataAt_loop_all_above (ws : weatherStack) :
  Forall (fun s => altitude < Meteo.alt s) ws ->
  forall i below, setDataAt_loop altitude f value ws i below = inr below.
Proof.
  intros H i below. destruct H as [|c rest Hc _]; simpl.
  - reflexivity.
  - repeat branch. reflexivity.
Qed.

Lemma setDataAt_loop_all_below (ws : weatherStack) :
  Forall (fun s => Meteo.alt s < altitude) ws ->
  forall i below, exists b, setDataAt_loop altitude f value ws i below = inr b.
Proof.
  induction 1 as [|c rest Hc _ IH]; intros i below; simpl.
  - eexists; reflexivity.
  - repeat branch. destruct (IH (S i) (Some i)) as [b ->]. eexists; reflexivity.
Qed.

Lemma splice_at_length {A : Type} (l1 l2 : list A) (x : A) :
  splice (Some (length l1)) x (l1 ++ l2) = l1 ++ x :: l2.
Proof.
  unfold splice. rewrite firstn_app, skipn_app, Nat.sub_diag.
  rewrite firstn_all, skipn_all. simpl. rewrite app_nil_r. reflexivity.
Qed.

Lemma set_field_alt (o : Meteo.t) : Meteo.alt (set_field o f value) = Meteo.alt o.
Proof. destruct f; reflexivity. Qed.

Lemma set_field_dewPoint (o : Meteo.t) :
  Meteo.dewPoint (set_field o f value) = Meteo.dewPoint o.
Proof. destruct f; reflexivity. Qed.

Lemma get_set_field (o : Meteo.t) : get_field (set_field o f value) f = value.
Proof. destruct f; reflexivity. Qed.

Lemma misplaced_not_ascending (l1 l2 : list Meteo.t) (new lo : Meteo.t) :
  Meteo.alt lo < Meteo.alt new -> ~ ascending (l1 ++ new :: lo :: l2).
Proof.
  intros Hlt Hs. induction l1 as [|c l1 IH]; simpl in Hs.
  - inversion Hs as [|? ? _ Hc]; subst.
    inversion Hc as [|? ? Hlo _]; subst. lra.
  - inversion Hs; subst. auto.
Qed.

End Writing.

(** ** The profile operations *)

(** C2.  On a stack strictly increasing by altitude, [getDataAt] returns
    the stored field of the sample whose altitude is the requested one, and
    at an altitude strictly between two neighbouring samples [lo] and [hi]
    it returns
    [lo.field + ((altitude - lo.alt) / (hi.alt - lo.alt)) * (hi.field - lo.field)]. *)
Theorem getDataAt_exact_or_interpolated (ws : weatherStack) (altitude : Q) (f : fieldName) :
  ascending ws ->
  (forall s, In s ws -> Meteo.alt s == altitude ->
             getDataAt altitude f ws = Ok (get_field s f))
  /\ (forall l1 lo hi l2,
         ws = l1 ++ lo :: hi :: l2 ->
         Meteo.alt lo < altitude -> altitude < Meteo.alt hi ->
         getDataAt altitude f ws
         = Ok (get_field lo f
               + ((altitude - Meteo.alt lo) / (Meteo.alt hi - Meteo.alt lo))
                 * (get_field hi f - get_field lo f))).
Proof.
  intros Hs. split.
  - intros s Hin Heq. unfold getDataAt.
    rewrite (getDataAt_loop_exact altitude f ws s Hs Hin Heq). reflexivity.
  - intros l1 lo hi l2 -> Hlo Hhi. unfold getDataAt.
    rewrite (getDataAt_loop_between altitude f l1 l2 lo hi Hs Hlo Hhi). reflexivity.
Qed.

(** C8.  At an altitude strictly below every sample (below the lowest) or
    strictly above every sample (above the highest), [getDataAt] raises an
    error instead of returning an extrapolated value. *)
Theorem getDataAt_out_of_range (ws : weatherStack) (altitude : Q) (f : fieldName) :
  Forall (fun s => altitude < Meteo.alt s) ws
  \/ Forall (fun s => Meteo.alt s < altitude) ws ->
  getDataAt altitude f ws = Throw TypeError.
Proof.
  apply getDataAt_outside.
Qed.

(** C9.  [setDataAt] at an altitude strictly below every sample or strictly
    above every sample raises the error of the out-of-range read made while
    the new sample is built, and leaves the stack as it was. *)
Theorem setDataAt_out_of_range (M : MathLib) (G : Globals) (ws : weatherStack)
        (altitude : Q) (f : fieldName) (value : Q) :
  Forall (fun s => altitude < Meteo.alt s) ws
  \/ Forall (fun s => Meteo.alt s < altitude) ws ->
  setDataAt M G altitude f value ws = (Throw TypeError, ws).
Proof.
  intros H. unfold setDataAt.
  assert (Hloop : exists b, setDataAt_loop altitude f value ws 0 None = inr b).
  { destruct H as [H|H].
    - exists None. apply setDataAt_loop_all_above; assumption.
    - apply setDataAt_loop_all_below; assumption. }
  destruct Hloop as [b ->].
  unfold AutoMeteoData, getTemperatureAt.
  rewrite (getDataAt_outside altitude temp ws H). reflexivity.
Qed.

(** C1 (what the code does).  At an altitude strictly between two
    neighbouring samples [lo] and [hi] of an ascending stack, [setDataAt]
    puts the new sample in front of [lo], not behind it: the stack is no
    longer ascending. *)
Theorem setDataAt_misplaces_new_sample (M : MathLib) (G : Globals)
        (l1 l2 : list Meteo.t) (lo hi : Meteo.t)
        (altitude : Q) (f : fieldName) (value : Q) :
  ascending (l1 ++ lo :: hi :: l2) ->
  Meteo.alt lo < altitude -> altitude < Meteo.alt hi ->
  exists newField,
    setDataAt M G altitude f value (l1 ++ lo :: hi :: l2)
    = (Ok tt, l1 ++ newField :: lo :: hi :: l2)
    /\ Meteo.alt newField = altitude
    /\ get_field newField f = value
    /\ ~ ascending (l1 ++ newField :: lo :: hi :: l2).
Proof.
  intros Hs Hlo Hhi. unfold setDataAt.
  rewrite (setDataAt_loop_between altitude f value l1 l2 lo hi Hs Hlo Hhi).
  unfold AutoMeteoData, getDewPointAt, getTemperatureAt, getWindAt,
    getAbsoluteHumidityAt, getDataAt.
  rewrite !(getDataAt_loop_between altitude _ l1 l2 lo hi Hs Hlo Hhi).
  simpl rbind. change (0 + length l1)%nat with (length l1).
  eexists. split; [|split; [|split]].
  - rewrite splice_at_length. reflexivity.
  - rewrite set_field_alt. reflexivity.
  - apply get_set_field.
  - apply misplaced_not_ascending. rewrite set_field_alt. simpl. exact Hlo.
Qed.

(** C4 (as the code has it).  When an ascending stack holds a sample at
    the requested altitude, [setDataAt] assigns the named field of that
    sample in place: the sample keeps its position, its altitude and its
    stored [dewPoint], and nothing else in the stack changes. *)
Theorem setDataAt_existing_assigns_field_only (M : MathLib) (G : Globals)
        (l1 l2 : list Meteo.t) (s : Meteo.t)
        (altitude : Q) (f : fieldName) (value : Q) :
  ascending (l1 ++ s :: l2) -> Meteo.alt s == altitude ->
  exists s',
    setDataAt M G altitude f value (l1 ++ s :: l2) = (Ok tt, l1 ++ s' :: l2)
    /\ get_field s' f = value
    /\ (forall f', f' <> f -> get_field s' f' = get_field s f')
    /\ Meteo.alt s' = Meteo.alt s
    /\ Meteo.dewPoint s' = Meteo.dewPoint s.
Proof.
  intros Hs Heq. exists (set_field s f value). unfold setDataAt.
  rewrite (setDataAt_loop_exact altitude f value l1 l2 s Hs Heq).
  repeat split.
  - apply get_set_field.
  - intros f' Hf. destruct f, f'; try reflexivity; contradiction.
  - apply set_field_alt.
  - apply set_field_dewPoint.
Qed.

(** C10.  The cubic fit is negative at -20 degrees; where it is negative
    every positive absolute humidity gives a negative relative humidity,
    and with a ground absolute humidity that is not negative a pass of the
    simulation loop through such a layer leaves [cloudBase] as it was. *)
Theorem negative_fit_never_saturates (M : MathLib) (G : Globals) (ws : weatherStack)
        (altitude t : Q) (st : loopState) :
  0 <= defaultGroundAbsoluteHumidity G ->
  getTemperatureAt altitude ws = Ok t ->
  getSaturatedDensityFor M t < 0 ->
  getSaturatedDensityFor M (-20) < 0
  /\ (forall absolute a p,
         0 < absolute -> getRelativeHumidity M absolute a p t < 0)
  /\ ~ 1.0 <= getRelativeHumidity M (defaultGroundAbsoluteHumidity G) altitude
                (getPressureAtAltitude M (groundPressure G) altitude t) t
  /\ exists st' b,
      body M G ws altitude st = Ok (st', b)
      /\ Data.cloudBase (data st') = Data.cloudBase (data st).
Proof.
  intros Hgah Ht Hneg.
  assert (Hinv : / getSaturatedDensityFor M t < 0) by (apply Qinv_neg; exact Hneg).
  assert (Hrh : ~ 1.0 <= getRelativeHumidity M (defaultGroundAbsoluteHumidity G) altitude
                         (getPressureAtAltitude M (groundPressure G) altitude t) t).
  { unfold getRelativeHumidity, Qdiv. nra. }
  split; [reflexivity|]. split; [|split; [exact Hrh|]].
  - intros absolute a p Habs. unfold getRelativeHumidity, Qdiv. nra.
  - unfold body. rewrite Ht. simpl rbind. cbv zeta.
    destruct (Qle_bool 1.0 _) eqn:E.
    + apply Qle_bool_iff in E. simpl in E. contradiction.
    + simpl andb. cbv iota.
      match goal with |- context [if ?c then Ok _ else Ok _] => destruct c end;
        do 2 eexists; split; reflexivity.
Qed.

(** ** The simulation loop *)

Section Simulation.

Context (M : MathLib) (G : Globals) (ws : weatherStack).

(** What a pass that does not raise leaves behind. *)
Lemma body_Ok (altitude : Q) (st st' : loopState) (b : bool) :
  body M G ws altitude st = Ok (st', b) ->
  exists t,
    getTemperatureAt altitude ws = Ok t
    /\ impulse st'
       = impulse st
         + increment G (cloudBase_after (Data.cloudBase (data st)) (prev st)
                          (levelOf M G altitude t))
             (prev st) (levelOf M G altitude t)
    /\ Data.cloudBase (data st')
       = cloudBase_after (Data.cloudBase (data st)) (prev st) (levelOf M G altitude t)
    /\ Data.strength (data st')
       = Data.strength (data st) ++ [Point.mk altitude (impulse st')]
    /\ (if b
        then impulse st' < 0
             /\ Data.thermalTop (data st') = altitude
        else 0 <= impulse st'
             /\ Data.thermalTop (data st') = Data.thermalTop (data st)
             /\ prev st' = levelOf M G altitude t).
Proof.
  unfold body. destruct (getTemperatureAt altitude ws) as [t|e]; simpl rbind;
    [|discriminate].
  cbv zeta. intros H. exists t. split; [reflexivity|].
  match type of H with
  | (if Qltb ?i 0 then _ else _) = _ => destruct (Qltb i 0) eqn:E
  end; inversion H; subst; clear H; simpl; order_facts;
    repeat split; try reflexivity; assumption.
Qed.

Lemma loop_runs (fuel : nat) :
  forall altitude st d,
    loop M G fuel ws altitude st = Some (Ok d) ->
    exists pts, runs M G ws altitude st pts d.
Proof.
  induction fuel as [|fuel IH]; intros altitude st d; simpl;
    destruct (Qltb altitude calculationsMaxHeight) eqn:E; order_facts;
    try discriminate.
  - intros H. inversion H; subst. eexists. apply runs_exit. assumption.
  - destruct (body M G ws altitude st) as [[st' [|]]|e] eqn:Hb; intros H.
    + inversion H; subst. eexists. eapply runs_break; eassumption.
    + destruct (IH _ _ _ H) as [pts Hr]. eexists. eapply runs_next; eassumption.
    + discriminate.
  - intros H. inversion H; subst. eexists. apply runs_exit. assumption.
Qed.

Lemma runs_loop (altitude : Q) (st : loopState) (pts : list Point.t) (d : Data.t) :
  runs M G ws altitude st pts d ->
  exists fuel, loop M G fuel ws altitude st = Some (Ok d).
Proof.
  induction 1 as [a st Hge|a st st' Hlt Hb|a st st' pts d Hlt Hb _ [fuel IH]].
  - exists O. simpl. apply Qltb_ge in Hge. rewrite Hge. reflexivity.
  - exists 1%nat. simpl. apply Qltb_lt in Hlt. rewrite Hlt, Hb. reflexivity.
  - exists (S fuel). simpl. apply Qltb_lt in Hlt. rewrite Hlt, Hb. exact IH.
Qed.

(** The entries of the step relation are the ones pushed onto
    [data.strength]. *)
Lemma runs_strength (altitude : Q) (st : loopState) (pts : list Point.t) (d : Data.t) :
  runs M G ws altitude st pts d ->
  Data.strength d = Data.strength (data st) ++ pts.
Proof.
  induction 1 as [a st Hge|a st st' Hlt Hb|a st st' pts d Hlt Hb _ IH].
  - rewrite app_nil_r. reflexivity.
  - destruct (body_Ok _ _ _ _ Hb) as (t & _ & _ & _ & Hs & _). exact Hs.
  - destruct (body_Ok _ _ _ _ Hb) as (t & _ & _ & _ & Hs & _).
    rewrite IH, Hs, <- app_assoc. reflexivity.
Qed.

(** A run of [getThermalData] that returns is a run of the loop from
    the entry state, and its strength series is what the loop pushed. *)
Lemma getThermalData_runs (fuel : nat) (d : Data.t) :
  getThermalData_within M G fuel ws = Some (Ok d) ->
  exists t0,
    getTemperatureAt 0.0 ws = Ok t0
    /\ runs M G ws (calculationResolution G)
         (mkLoopState (Data.mk calculationsMaxHeight calculationsMaxHeight [])
            (initialImpulse G) (levelOf M G 0.0 t0))
         (Data.strength d) d.
Proof.
  unfold getThermalData_within, enter.
  destruct (getTemperatureAt 0.0 ws) as [t0|e] eqn:Ht; simpl rbind;
    [|discriminate].
  intros H. exists t0. split; [reflexivity|].
  destruct (loop_runs _ _ _ _ H) as [pts Hr].
  pose proof (runs_strength _ _ _ _ Hr) as Hs. simpl in Hs. subst pts.
  exact Hr.
Qed.

(** With a positive [calculationResolution] the loop ends within any
    number of passes that reaches the ceiling. *)
Lemma loop_ends (fuel : nat) :
  0 < calculationResolution G ->
  forall altitude st,
    calculationsMaxHeight <= altitude + inject_Z (Z.of_nat fuel) * calculationResolution G ->
    loop M G fuel ws altitude st <> None.
Proof.
  intros Hres. induction fuel as [|fuel IH]; intros altitude st Hc; simpl;
    destruct (Qltb altitude calculationsMaxHeight) eqn:E; order_facts;
    try discriminate.
  - change (inject_Z (Z.of_nat 0)) with 0 in Hc. lra.
  - destruct (body M G ws altitude st) as [[st' [|]]|e]; try discriminate.
    apply IH. rewrite Nat2Z.inj_succ, <- Z.add_1_r, inject_Z_plus in Hc.
    change (inject_Z 1) with 1 in Hc. lra.
Qed.

Lemma passes_reach_ceiling :
  0 < calculationResolution G -> calculationsMaxHeight <= inject_Z (Z.of_nat (passes G)) * calculationResolution G.
Proof.
  intros Hres. unfold passes.
  set (q := calculationsMaxHeight / calculationResolution G).
  assert (Hq : q <= inject_Z (Z.of_nat (Z.to_nat (Qceiling q)))).
  { eapply Qle_trans; [apply Qle_ceiling|].
    rewrite <- Zle_Qle. lia. }
  assert (E : calculationsMaxHeight == q * calculationResolution G) by (unfold q; field; lra).
  rewrite E. apply Qmult_le_compat_r; [exact Hq|lra].
Qed.

(** [getThermalData] returns or raises when [calculationResolution] is
    positive. *)
Lemma getThermalData_ends :
  0 < calculationResolution G -> getThermalData M G ws <> None.
Proof.
  intros Hres. unfold getThermalData, getThermalData_within.
  destruct (enter M G ws); [|discriminate].
  apply loop_ends; [assumption|].
  pose proof (passes_reach_ceiling Hres). lra.
Qed.

Lemma body_returns (altitude t : Q) (st : loopState) :
  getTemperatureAt altitude ws = Ok t ->
  exists st' b, body M G ws altitude st = Ok (st', b).
Proof.
  intros Ht. unfold body. rewrite Ht. simpl rbind. cbv zeta.
  match goal with |- context [if ?c then Ok _ else Ok _] => destruct c end;
    do 2 eexists; reflexivity.
Qed.

Lemma loop_returns (fuel : nat) :
  0 < calculationResolution G ->
  (forall a, 0 <= a -> a < calculationsMaxHeight ->
             exists t, getTemperatureAt a ws = Ok t) ->
  forall altitude st,
    0 <= altitude ->
    calculationsMaxHeight
    <= altitude + inject_Z (Z.of_nat fuel) * calculationResolution G ->
    exists d, loop M G fuel ws altitude st = Some (Ok d).
Proof.
  intros Hres Hread. induction fuel as [|fuel IH]; intros altitude st H0 Hc; simpl;
    destruct (Qltb altitude calculationsMaxHeight) eqn:E; order_facts;
    try (eexists; reflexivity).
  - change (inject_Z (Z.of_nat 0)) with 0 in Hc. lra.
  - destruct (Hread altitude H0 E) as [t Ht].
    destruct (body_returns altitude t st Ht) as (st' & [|] & ->).
    + eexists; reflexivity.
    + apply IH; [lra|].
      rewrite Nat2Z.inj_succ, <- Z.add_1_r, inject_Z_plus in Hc.
      change (inject_Z 1) with 1 in Hc. lra.
Qed.

(** On an ascending stack with a sample at or below the ground and a
    sample at or above the ceiling, and with a positive
    [calculationResolution], [getThermalData] returns. *)
Lemma getThermalData_returns :
  0 < calculationResolution G ->
  ascending ws ->
  (exists s, In s ws /\ Meteo.alt s <= 0) ->
  (exists s, In s ws /\ calculationsMaxHeight <= Meteo.alt s) ->
  exists d, getThermalData M G ws = Some (Ok d).
Proof.
  intros Hres Hs (lo & Hlo & Hlo0) (hi & Hhi & Hhimax).
  assert (Hread : forall a, 0 <= a -> a < calculationsMaxHeight ->
                            exists t, getTemperatureAt a ws = Ok t).
  { intros a H0 Hmax. apply getDataAt_covered; [exact Hs| |].
    - exists lo. split; [exact Hlo|lra].
    - exists hi. split; [exact Hhi|lra]. }
  unfold getThermalData, getThermalData_within, enter.
  destruct (Hread 0.0) as [t0 Ht0]; [lra|reflexivity|].
  rewrite Ht0. simpl rbind.
  apply loop_returns; [exact Hres|exact Hread|lra|].
  pose proof (passes_reach_ceiling Hres). lra.
Qed.

(** *** The impulse *)

Lemma tempAt_read (altitude t : Q) :
  getTemperatureAt altitude ws = Ok t -> tempAt ws altitude = t.
Proof.
  unfold tempAt. intros ->. reflexivity.
Qed.

Lemma altitudeOfPass_next (j : nat) :
  altitudeOfPass G (S (S j)) = altitudeOfPass G (S j) + calculationResolution G.
Proof.
  reflexivity.
Qed.

(** A run of the loop that starts in the state after [j] passes pushes
    the entries of the recurrence, and stops at the first impulse below
    zero or at the ceiling. *)
Lemma runs_recurrence (altitude : Q) (st : loopState) (pts : list Point.t) (d : Data.t) :
  runs M G ws altitude st pts d ->
  forall j,
    altitude = altitudeOfPass G (S j) ->
    impulse st = impulseAfter M G ws j ->
    prev st = levelOfPass M G ws j ->
    Data.cloudBase (data st) = cloudBaseAfter M G ws j ->
    (forall k, (k < length pts)%nat ->
       nth k pts (Point.mk 0 0)
       = Point.mk (altitudeOfPass G (S (j + k))) (impulseAfter M G ws (S (j + k)))
       /\ altitudeOfPass G (S (j + k)) < calculationsMaxHeight
       /\ ((S k < length pts)%nat -> 0 <= impulseAfter M G ws (S (j + k))))
    /\ ((0 < length pts)%nat /\ impulseAfter M G ws (j + length pts) < 0
        \/ calculationsMaxHeight <= altitudeOfPass G (S (j + length pts))).
Proof.
  induction 1 as [a st Hge|a st st' Hlt Hb|a st st' pts d Hlt Hb _ IH];
    intros j Ha Hi Hp Hcb.
  - split; [simpl; intros k Hk; lia|].
    right. simpl length. rewrite Nat.add_0_r, <- Ha. exact Hge.
  - destruct (body_Ok _ _ _ _ Hb) as (t & Ht & Hi' & _ & _ & Hneg & _).
    assert (Hlevel : levelOfPass M G ws (S j) = levelOf M G a t).
    { unfold levelOfPass, levelAt. rewrite <- Ha, (tempAt_read _ _ Ht). reflexivity. }
    assert (Hnext : impulse st' = impulseAfter M G ws (S j)).
    { rewrite Hi'. simpl impulseAfter. simpl cloudBaseAfter.
      rewrite Hlevel, Hi, Hp, Hcb. reflexivity. }
    split.
    + intros k Hk. simpl in Hk. assert (k = O) by lia. subst k.
      rewrite Nat.add_0_r, <- Ha, <- Hnext. simpl.
      split; [reflexivity|]. split; [exact Hlt|lia].
    + left. simpl length. split; [lia|].
      rewrite Nat.add_1_r, <- Hnext. exact Hneg.
  - destruct (body_Ok _ _ _ _ Hb) as (t & Ht & Hi' & Hcb' & _ & Hpos & _ & Hp').
    assert (Hlevel : levelOfPass M G ws (S j) = levelOf M G a t).
    { unfold levelOfPass, levelAt. rewrite <- Ha, (tempAt_read _ _ Ht). reflexivity. }
    assert (Hbase : Data.cloudBase (data st') = cloudBaseAfter M G ws (S j)).
    { rewrite Hcb'. simpl cloudBaseAfter. rewrite Hlevel, Hp, Hcb. reflexivity. }
    assert (Hnext : impulse st' = impulseAfter M G ws (S j)).
    { rewrite Hi'. simpl impulseAfter. simpl cloudBaseAfter.
      rewrite Hlevel, Hi, Hp, Hcb. reflexivity. }
    destruct (IH (S j)) as [Hk Hend].
    + rewrite altitudeOfPass_next, Ha. reflexivity.
    + exact Hnext.
    + rewrite Hp', Hlevel. reflexivity.
    + exact Hbase.
    + split.
      * intros [|k] Hlen; simpl in Hlen.
        -- rewrite Nat.add_0_r, <- Ha, <- Hnext. simpl.
           split; [reflexivity|]. split; [exact Hlt|intros _; exact Hpos].
        -- destruct (Hk k ltac:(lia)) as (E & Hc & Hgo).
           rewrite Nat.add_succ_r. simpl nth. simpl length.
           rewrite <- Nat.add_succ_l. split; [exact E|]. split; [exact Hc|].
           intros Hlt'. apply Hgo. lia.
      * simpl length. rewrite Nat.add_succ_r.
        destruct Hend as [[Hlen Hneg]|Hc].
        -- left. split; [lia|exact Hneg].
        -- right. exact Hc.
Qed.

(** *** The thermal top and the altitudes of the passes *)

Lemma runs_thermalTop (altitude : Q) (st : loopState) (pts : list Point.t) (d : Data.t) :
  runs M G ws altitude st pts d ->
  match find negative pts with
  | Some p =>
      Data.thermalTop d = Point.altitude p
      /\ exists l, pts = l ++ [p] /\ find negative l = None
  | None =>
      Data.thermalTop d = Data.thermalTop (data st)
      /\ calculationsMaxHeight
         <= altitude + inject_Z (Z.of_nat (length pts)) * calculationResolution G
  end.
Proof.
  induction 1 as [a st Hge|a st st' Hlt Hb|a st st' pts d Hlt Hb _ IH].
  - simpl. split; [reflexivity|].
    change (inject_Z 0) with 0. lra.
  - destruct (body_Ok _ _ _ _ Hb) as (t & _ & _ & _ & _ & Hneg & Htop).
    simpl. unfold negative at 1. simpl Point.impulse.
    apply Qltb_lt in Hneg. rewrite Hneg. simpl.
    split; [exact Htop|]. exists []. split; reflexivity.
  - destruct (body_Ok _ _ _ _ Hb) as (t & _ & _ & _ & _ & Hpos & Htop & _).
    simpl find. unfold negative at 1. simpl Point.impulse.
    apply Qltb_ge in Hpos. rewrite Hpos.
    destruct (find negative pts) as [p|].
    + destruct IH as (Hp & l & -> & Hl). split; [exact Hp|].
      exists (Point.mk a (impulse st') :: l). split; [reflexivity|].
      simpl. unfold negative at 1. simpl Point.impulse. rewrite Hpos. exact Hl.
    + destruct IH as (Hp & Hc). split; [congruence|].
      simpl length. rewrite Nat2Z.inj_succ, <- Z.add_1_r, inject_Z_plus.
      change (inject_Z 1) with 1. lra.
Qed.

Lemma runs_altitudes (altitude : Q) (st : loopState) (pts : list Point.t) (d : Data.t) :
  runs M G ws altitude st pts d ->
  forall k, (k < length pts)%nat ->
    Point.altitude (nth k pts (Point.mk 0 0))
    == altitude + inject_Z (Z.of_nat k) * calculationResolution G
    /\ Point.altitude (nth k pts (Point.mk 0 0)) < calculationsMaxHeight.
Proof.
  induction 1 as [a st Hge|a st st' Hlt Hb|a st st' pts d Hlt Hb _ IH];
    intros k Hk; simpl in Hk.
  - lia.
  - assert (k = O) by lia. subst k. simpl.
    change (inject_Z 0) with 0. split; [ring|exact Hlt].
  - destruct k as [|k]; simpl nth.
    + simpl. change (inject_Z 0) with 0. split; [ring|exact Hlt].
    + destruct (IH k ltac:(lia)) as [E Hlt']. split; [|exact Hlt'].
      rewrite E, Nat2Z.inj_succ, <- Z.add_1_r, inject_Z_plus.
      change (inject_Z 1) with 1. ring.
Qed.

(** *** The cloud base *)

(** Once [cloudBase] differs from the ceiling no pass assigns it. *)
Lemma runs_cloudBase_kept (altitude : Q) (st : loopState) (pts : list Point.t) (d : Data.t) :
  runs M G ws altitude st pts d ->
  ~ Data.cloudBase (data st) == calculationsMaxHeight ->
  Data.cloudBase d = Data.cloudBase (data st).
Proof.
  induction 1 as [a st Hge|a st st' Hlt Hb|a st st' pts d Hlt Hb _ IH]; intros Hcb.
  - reflexivity.
  - destruct (body_Ok _ _ _ _ Hb) as (t & _ & _ & E & _).
    rewrite E. unfold cloudBase_after.
    apply Qeq_bool_false in Hcb. rewrite Hcb, andb_false_r. reflexivity.
  - destruct (body_Ok _ _ _ _ Hb) as (t & _ & _ & E & _).
    assert (E' : Data.cloudBase (data st') = Data.cloudBase (data st)).
    { rewrite E. unfold cloudBase_after.
      apply Qeq_bool_false in Hcb. rewrite Hcb, andb_false_r. reflexivity. }
    rewrite <- E'. apply IH. rewrite E'. exact Hcb.
Qed.

(** While [cloudBase] is the ceiling, the first saturated pass assigns
    it. *)
Lemma runs_cloudBase_first (altitude : Q) (st : loopState) (pts : list Point.t) (d : Data.t) :
  runs M G ws altitude st pts d ->
  Data.cloudBase (data st) == calculationsMaxHeight ->
  match first_saturation M G ws (prev st) (map Point.altitude pts) with
  | None => Data.cloudBase d = Data.cloudBase (data st)
  | Some (p, c) =>
      ~ crossing p c == calculationsMaxHeight -> Data.cloudBase d = crossing p c
  end.
Proof.
  induction 1 as [a st Hge|a st st' Hlt Hb|a st st' pts d Hlt Hb Hr IH]; intros Hcb.
  - reflexivity.
  - destruct (body_Ok _ _ _ _ Hb) as (t & Ht & _ & E & _).
    simpl. unfold levelAt. rewrite (tempAt_read _ _ Ht), E. unfold cloudBase_after.
    apply Qeq_bool_iff in Hcb. rewrite Hcb, andb_true_r.
    destruct (saturated (levelOf M G a t)); [intros _|]; reflexivity.
  - destruct (body_Ok _ _ _ _ Hb) as (t & Ht & _ & E & _ & _ & _ & Hp).
    simpl. unfold levelAt. rewrite (tempAt_read _ _ Ht).
    unfold cloudBase_after in E.
    pose proof Hcb as Hcb'. apply Qeq_bool_iff in Hcb'. rewrite Hcb', andb_true_r in E.
    destruct (saturated (levelOf M G a t)).
    + intros Hne. rewrite <- E. apply (runs_cloudBase_kept _ _ _ _ Hr).
      rewrite E. exact Hne.
    + rewrite <- Hp, <- E. apply IH. rewrite E. exact Hcb.
Qed.

End Simulation.

(** ** The simulation *)

(** C3 (as the code has it).  [thermalTop] is the altitude of the first
    pass whose impulse is below zero, and [calculationsMaxHeight] when no
    pass has an impulse below zero. *)
Theorem thermalTop_first_negative (M : MathLib) (G : Globals) (ws : weatherStack)
        (fuel : nat) (d : Data.t) :
  getThermalData_within M G fuel ws = Some (Ok d) ->
  Data.thermalTop d
  = match find negative (Data.strength d) with
    | Some p => Point.altitude p
    | None => calculationsMaxHeight
    end.
Proof.
  intros H. destruct (getThermalData_runs M G ws fuel d H) as (t0 & _ & Hr).
  pose proof (runs_thermalTop M G ws _ _ _ _ Hr) as Ht.
  destruct (find negative (Data.strength d)); destruct Ht as [Ht _]; exact Ht.
Qed.

(** C5 (as the code has it).  The strength series has one entry per pass;
    entry [k] (from 0) is at altitude [(k+1) * calculationResolution],
    below [calculationsMaxHeight], so with a positive resolution the
    altitudes ascend.  If some impulse is below zero, the first such entry
    is the last one and [thermalTop] is its altitude.  Otherwise
    [thermalTop] is [calculationsMaxHeight] and the series stops at the
    last multiple of the resolution below [calculationsMaxHeight]. *)
Theorem strength_one_entry_per_pass (M : MathLib) (G : Globals) (ws : weatherStack)
        (fuel : nat) (d : Data.t) :
  getThermalData_within M G fuel ws = Some (Ok d) ->
  let at_ k := Point.altitude (nth k (Data.strength d) (Point.mk 0 0)) in
  let n := length (Data.strength d) in
  (forall k, (k < n)%nat ->
     at_ k == inject_Z (Z.of_nat (S k)) * calculationResolution G
     /\ at_ k < calculationsMaxHeight)
  /\ (0 < calculationResolution G ->
      forall j k, (j < k)%nat -> (k < n)%nat -> at_ j < at_ k)
  /\ match find negative (Data.strength d) with
     | Some p =>
         Data.thermalTop d = Point.altitude p
         /\ exists l, Data.strength d = l ++ [p] /\ find negative l = None
     | None =>
         Data.thermalTop d = calculationsMaxHeight
         /\ calculationsMaxHeight <= inject_Z (Z.of_nat (S n)) * calculationResolution G
     end.
Proof.
  intros H at_ n.
  destruct (getThermalData_runs M G ws fuel d H) as (t0 & _ & Hr).
  pose proof (runs_altitudes M G ws _ _ _ _ Hr) as Ha.
  pose proof (runs_thermalTop M G ws _ _ _ _ Hr) as Ht.
  assert (Hk : forall k, (k < n)%nat ->
             at_ k == inject_Z (Z.of_nat (S k)) * calculationResolution G
             /\ at_ k < calculationsMaxHeight).
  { intros k Hk. destruct (Ha k Hk) as [E Hlt]. split; [|exact Hlt].
    unfold at_. rewrite E, Nat2Z.inj_succ, <- Z.add_1_r, inject_Z_plus.
    change (inject_Z 1) with 1. ring. }
  split; [exact Hk|]. split.
  - intros Hres j k Hjk Hkn.
    destruct (Hk j ltac:(lia)) as [Ej _]. destruct (Hk k Hkn) as [Ek _].
    rewrite Ej, Ek. apply Qmult_lt_compat_r; [exact Hres|].
    rewrite <- Zlt_Qlt. lia.
  - destruct (find negative (Data.strength d)) as [p|].
    + exact Ht.
    + destruct Ht as [Ht Hc]. split; [exact Ht|].
      fold n in Hc. rewrite Nat2Z.inj_succ, <- Z.add_1_r, inject_Z_plus.
      change (inject_Z 1) with 1. lra.
Qed.

(** X27.  If no pass is saturated, [cloudBase] is
    [calculationsMaxHeight].  Otherwise, with [p] and [c] the previous and
    current level of the first saturated pass, [cloudBase] is
    [p.alt + ((1.0 - p.relHumi) / (c.relHumi - p.relHumi)) * (c.alt - p.alt)]
    whatever later passes see, provided that value is not itself
    [calculationsMaxHeight]. *)
Theorem cloudBase_first_saturation (M : MathLib) (G : Globals) (ws : weatherStack)
        (fuel : nat) (d : Data.t) :
  getThermalData_within M G fuel ws = Some (Ok d) ->
  match first_saturation M G ws (levelAt M G ws 0.0)
          (map Point.altitude (Data.strength d)) with
  | None => Data.cloudBase d = calculationsMaxHeight
  | Some (p, c) =>
      ~ crossing p c == calculationsMaxHeight ->
      Data.cloudBase d
      = Level.alt p
        + ((1.0 - Level.relHumi p) / (Level.relHumi c - Level.relHumi p))
          * (Level.alt c - Level.alt p)
  end.
Proof.
  intros H. destruct (getThermalData_runs M G ws fuel d H) as (t0 & Ht0 & Hr).
  unfold levelAt. rewrite (tempAt_read ws _ _ Ht0).
  exact (runs_cloudBase_first M G ws _ _ _ _ Hr (Qeq_refl _)).
Qed.

(** What a pass on doubles leaves in [cloudBase] and [prev]. *)
Lemma doubles_body_cloudBase (Math_pow : float -> float -> float)
      (G : Doubles.Globals) (ws : Doubles.weatherStack) (altitude t : float)
      (st st' : Doubles.loopState) (b : bool) :
  Doubles.body Math_pow G ws altitude st = Ok (st', b) ->
  Doubles.getTemperatureAt altitude ws = Ok t ->
  Doubles.Data.cloudBase (Doubles.data st')
  = (if Doubles.saturated (Doubles.levelOf Math_pow G altitude t)
        && PrimFloat.eqb (Doubles.Data.cloudBase (Doubles.data st))
             Doubles.calculationsMaxHeight
     then Doubles.crossing (Doubles.prev st) (Doubles.levelOf Math_pow G altitude t)
     else Doubles.Data.cloudBase (Doubles.data st))
  /\ (b = false -> Doubles.prev st' = Doubles.levelOf Math_pow G altitude t).
Proof.
  intros Hb Ht. unfold Doubles.body in Hb. rewrite Ht in Hb. simpl rbind in Hb.
  cbv zeta in Hb.
  match type of Hb with
  | (if ?c then _ else _) = _ => destruct c
  end; injection Hb as <- <-; split; try reflexivity; discriminate.
Qed.

(** The loop on doubles, one test at a time. *)
Lemma doubles_loop_out_of_fuel (Math_pow : float -> float -> float)
      (G : Doubles.Globals) (ws : Doubles.weatherStack) (altitude : float)
      (st : Doubles.loopState) :
  PrimFloat.ltb altitude Doubles.calculationsMaxHeight = true ->
  Doubles.loop Math_pow G O ws altitude st = None.
Proof.
  intros Hlt. simpl. rewrite Hlt. reflexivity.
Qed.

Lemma doubles_loop_pass (Math_pow : float -> float -> float)
      (G : Doubles.Globals) (ws : Doubles.weatherStack) (fuel : nat) (altitude : float)
      (st st' : Doubles.loopState) :
  PrimFloat.ltb altitude Doubles.calculationsMaxHeight = true ->
  Doubles.body Math_pow G ws altitude st = Ok (st', false) ->
  Doubles.loop Math_pow G (S fuel) ws altitude st
  = Doubles.loop Math_pow G fuel ws
      (PrimFloat.add altitude (Doubles.calculationResolution G)) st'.
Proof.
  intros Hlt Hb. simpl. rewrite Hlt, Hb. reflexivity.
Qed.

Lemma doubles_loop_break (Math_pow : float -> float -> float)
      (G : Doubles.Globals) (ws : Doubles.weatherStack) (fuel : nat) (altitude : float)
      (st st' : Doubles.loopState) :
  PrimFloat.ltb altitude Doubles.calculationsMaxHeight = true ->
  Doubles.body Math_pow G ws altitude st = Ok (st', true) ->
  Doubles.loop Math_pow G (S fuel) ws altitude st = Some (Ok (Doubles.data st')).
Proof.
  intros Hlt Hb. simpl. rewrite Hlt, Hb. reflexivity.
Qed.

(** On doubles as well, a [cloudBase] that is not [calculationsMaxHeight]
    is left alone by every pass, and so by the rest of the loop. *)
Lemma doubles_body_keeps (Math_pow : float -> float -> float)
      (G : Doubles.Globals) (ws : Doubles.weatherStack) (altitude : float)
      (st st' : Doubles.loopState) (b : bool) :
  Doubles.body Math_pow G ws altitude st = Ok (st', b) ->
  PrimFloat.eqb (Doubles.Data.cloudBase (Doubles.data st)) Doubles.calculationsMaxHeight
  = false ->
  Doubles.Data.cloudBase (Doubles.data st') = Doubles.Data.cloudBase (Doubles.data st).
Proof.
  intros Hb Hcb.
  destruct (Doubles.getTemperatureAt altitude ws) as [t|e] eqn:Ht.
  - destruct (doubles_body_cloudBase _ _ _ _ _ _ _ _ Hb Ht) as [E _].
    rewrite E, Hcb, andb_false_r. reflexivity.
  - unfold Doubles.body in Hb. rewrite Ht in Hb. discriminate.
Qed.

Lemma doubles_loop_keeps (Math_pow : float -> float -> float)
      (G : Doubles.Globals) (ws : Doubles.weatherStack) (fuel : nat) :
  forall altitude st d,
    Doubles.loop Math_pow G fuel ws altitude st = Some (Ok d) ->
    PrimFloat.eqb (Doubles.Data.cloudBase (Doubles.data st)) Doubles.calculationsMaxHeight
    = false ->
    Doubles.Data.cloudBase d = Doubles.Data.cloudBase (Doubles.data st).
Proof.
  induction fuel as [|fuel IH]; intros altitude st d; simpl;
    destruct (PrimFloat.ltb altitude Doubles.calculationsMaxHeight);
    try discriminate;
    try (intros H _; injection H as <-; reflexivity).
  destruct (Doubles.body Math_pow G ws altitude st) as [[st' [|]]|e] eqn:Hb;
    intros H Hcb; try discriminate.
  - injection H as <-. exact (doubles_body_keeps _ _ _ _ _ _ _ Hb Hcb).
  - pose proof (doubles_body_keeps _ _ _ _ _ _ _ Hb Hcb) as E.
    rewrite <- E. apply (IH _ _ _ H). rewrite E. exact Hcb.
Qed.

(** C6.  The guard of the cloud base detection takes a recorded value that
    equals [calculationsMaxHeight] for no record at all.  Take a run whose
    first two passes are saturated, whose first pass computes the crossing
    altitude [calculationsMaxHeight] and does not stop the thermal, and
    whose second pass computes another crossing altitude.  The first pass
    records its crossing altitude, the second pass records the cloud base
    again, and [getThermalData] returns the crossing altitude of the second
    pass. *)
Theorem cloudBase_recorded_again (Math_pow : float -> float -> float)
        (G : Doubles.Globals) (ws : Doubles.weatherStack) (t1 t2 : float)
        (st st1 : Doubles.loopState) (fuel : nat) (d : Doubles.Data.t) :
  let a1 := Doubles.calculationResolution G in
  let a2 := PrimFloat.add a1 (Doubles.calculationResolution G) in
  let c1 := Doubles.levelOf Math_pow G a1 t1 in
  let c2 := Doubles.levelOf Math_pow G a2 t2 in
  Doubles.enter Math_pow G ws = Ok st ->
  PrimFloat.ltb a1 Doubles.calculationsMaxHeight = true ->
  PrimFloat.ltb a2 Doubles.calculationsMaxHeight = true ->
  Doubles.getTemperatureAt a1 ws = Ok t1 ->
  Doubles.getTemperatureAt a2 ws = Ok t2 ->
  Doubles.saturated c1 = true ->
  Doubles.saturated c2 = true ->
  PrimFloat.eqb (Doubles.crossing (Doubles.prev st) c1) Doubles.calculationsMaxHeight
  = true ->
  PrimFloat.eqb (Doubles.crossing c1 c2) Doubles.calculationsMaxHeight = false ->
  Doubles.body Math_pow G ws a1 st = Ok (st1, false) ->
  Doubles.getThermalData_within Math_pow G fuel ws = Some (Ok d) ->
  Doubles.Data.cloudBase (Doubles.data st1) = Doubles.crossing (Doubles.prev st) c1
  /\ Doubles.Data.cloudBase d = Doubles.crossing c1 c2.
Proof.
  intros a1 a2 c1 c2 Hst Hlt1 Hlt2 Ht1 Ht2 Hs1 Hs2 Hx1 Hx2 Hb1 Hrun.
  subst a1 a2 c1 c2.
  assert (Hcb : PrimFloat.eqb (Doubles.Data.cloudBase (Doubles.data st))
                  Doubles.calculationsMaxHeight = true).
  { unfold Doubles.enter in Hst.
    destruct (Doubles.getTemperatureAt 0 ws) as [t0|e]; [|discriminate].
    simpl in Hst. injection Hst as <-. reflexivity. }
  destruct (doubles_body_cloudBase _ _ _ _ _ _ _ _ Hb1 Ht1) as [E1 Hp1].
  rewrite Hs1, Hcb in E1. simpl in E1.
  specialize (Hp1 eq_refl).
  split; [exact E1|].
  unfold Doubles.getThermalData_within in Hrun. rewrite Hst in Hrun.
  destruct fuel as [|fuel];
    [rewrite (doubles_loop_out_of_fuel _ _ _ _ _ Hlt1) in Hrun; discriminate|].
  rewrite (doubles_loop_pass _ _ _ _ _ _ _ Hlt1 Hb1) in Hrun.
  destruct fuel as [|fuel];
    [rewrite (doubles_loop_out_of_fuel _ _ _ _ _ Hlt2) in Hrun; discriminate|].
  destruct (Doubles.body Math_pow G ws
              (PrimFloat.add (Doubles.calculationResolution G)
                 (Doubles.calculationResolution G)) st1) as [[st2 b]|e] eqn:Hb2.
  - destruct (doubles_body_cloudBase _ _ _ _ _ _ _ _ Hb2 Ht2) as [E2 _].
    rewrite Hs2, E1, Hx1, Hp1 in E2. simpl in E2.
    destruct b.
    + rewrite (doubles_loop_break _ _ _ _ _ _ _ Hlt2 Hb2) in Hrun.
      injection Hrun as <-. exact E2.
    + rewrite (doubles_loop_pass _ _ _ _ _ _ _ Hlt2 Hb2) in Hrun.
      rewrite <- E2. apply (doubles_loop_keeps _ _ _ _ _ _ _ Hrun).
      rewrite E2. exact Hx2.
  - simpl in Hrun. rewrite Hlt2, Hb2 in Hrun. discriminate.
Qed.

(** C7.  The impulse before the first pass is
    [(solarStrength * 1.2 - 0.1) * thermalInitialImpulse], and every pass
    adds
    [(thermalStagnantGradient - gradient) * thermalImpulseTangentRatio
     * compensationMulti - compensationOffset]
    to it, taken between the level of the pass before and its own level
    and with the cloud base as it is after its own detection: this is
    [impulseAfter].  The strength series of a run that returns holds these
    impulses, pass by pass: entry [k] (from 0) is at the altitude of pass
    [k + 1] and has the impulse after [k + 1] passes.  No pass is missing:
    the altitude of every entry is below [calculationsMaxHeight], the
    impulse of every entry but the last is not below zero, and behind the
    last entry either the impulse is below zero or the altitude of the
    next pass is not below [calculationsMaxHeight]. *)
Theorem impulse_recurrence (M : MathLib) (G : Globals) (ws : weatherStack)
        (fuel : nat) (d : Data.t) :
  getThermalData_within M G fuel ws = Some (Ok d) ->
  let n := length (Data.strength d) in
  impulseAfter M G ws 0 = (solarStrength G * 1.2 - 0.1) * thermalInitialImpulse
  /\ (forall k,
        let p := levelOfPass M G ws k in
        let c := levelOfPass M G ws (S k) in
        impulseAfter M G ws (S k)
        = impulseAfter M G ws k
          + ((thermalStagnantGradient - gradient G p c) * thermalImpulseTangentRatio
             * compensationMulti G p c
             - compensationOffset (cloudBaseAfter M G ws (S k)) p c))
  /\ (forall k, (k < n)%nat ->
        nth k (Data.strength d) (Point.mk 0 0)
        = Point.mk (altitudeOfPass G (S k)) (impulseAfter M G ws (S k))
        /\ altitudeOfPass G (S k) < calculationsMaxHeight
        /\ ((S k < n)%nat -> 0 <= impulseAfter M G ws (S k)))
  /\ ((0 < n)%nat /\ impulseAfter M G ws n < 0
      \/ calculationsMaxHeight <= altitudeOfPass G (S n)).
Proof.
  intros H n.
  destruct (getThermalData_runs M G ws fuel d H) as (t0 & Ht0 & Hr).
  split; [reflexivity|]. split; [intros k; reflexivity|].
  apply (runs_recurrence M G ws _ _ _ _ Hr O).
  - reflexivity.
  - reflexivity.
  - simpl prev. unfold levelOfPass, levelAt. simpl altitudeOfPass.
    rewrite (tempAt_read ws _ _ Ht0). reflexivity.
  - reflexivity.
Qed.

(** ** Scenarios, evaluated *)

(** Two integers differ: decided by evaluating [Z.eqb]. *)
Ltac differ :=
  let H := fresh in
  intro H; apply Z.eqb_eq in H; vm_compute in H; discriminate H.

Lemma returned_intro (r : option (result Data.t)) (P : Data.t -> Prop) :
  has_returned r = true ->
  (forall d, r = Some (Ok d) -> P d) ->
  returned r P.
Proof.
  destruct r as [[d|e]|]; simpl; intros H HP; try discriminate.
  apply HP. reflexivity.
Defined.

Lemma returned_elim (r : option (result Data.t)) (P : Data.t -> Prop) (d : Data.t) :
  returned r P -> r = Some (Ok d) -> P d.
Proof.
  intros H ->. exact H.
Defined.

(** C1.  Writing a temperature at 2000 m into the initial stack (samples
    at 0, 9500 and 10000 m) leaves the samples in the order 2000, 0, 9500,
    10000. *)
Lemma setDataAt_initial_stack_2000 :
  map Meteo.alt
    (snd (setDataAt decades initialGlobals 2000 temp 10
            (initialStack decades initialGlobals)))
  = [2000; 0; 9500; 10000]
  /\ ~ ascending (snd (setDataAt decades initialGlobals 2000 temp 10
                         (initialStack decades initialGlobals))).
Proof.
  destruct (setDataAt_misplaces_new_sample decades initialGlobals []
              [MeteoData decades initialGlobals calculationsMaxHeight (-20.0) 0.0 0.5]
              (MeteoData decades initialGlobals 0 defaultGroundTemperature 0.0
                 (defaultGroundAbsoluteHumidity initialGlobals))
              (MeteoData decades initialGlobals 9500
                 (defaultGroundTemperature - (9500 / 100.0) * defaultTemperatureGradient)
                 0.0 1.0)
              2000 temp 10)
    as (newField & Hset & Halt & _ & Hbad).
  - repeat constructor.
  - reflexivity.
  - reflexivity.
  - change (initialStack decades initialGlobals)
      with ([] ++ initialStack decades initialGlobals) at 1 2.
    unfold initialStack at 1 2. rewrite Hset. simpl snd. split; [|exact Hbad].
    simpl. rewrite Halt. reflexivity.
Defined.

(** C2.  In the initial stack the temperature at 9500 m is the stored
    -41.5 degrees, and at 4750 m it is halfway between 25 and -41.5. *)
Lemma getDataAt_exact_or_interpolated_witness :
  ascending (initialStack decades initialGlobals)
  /\ (exists v, getDataAt 9500 temp (initialStack decades initialGlobals) = Ok v
                /\ v == -41.5)
  /\ (exists v, getDataAt 4750 temp (initialStack decades initialGlobals) = Ok v
                /\ v == -8.25).
Proof.
  assert (Hs : ascending (initialStack decades initialGlobals)) by (repeat constructor).
  destruct (getDataAt_exact_or_interpolated
              (initialStack decades initialGlobals) 9500 temp Hs) as [Hexact _].
  destruct (getDataAt_exact_or_interpolated
              (initialStack decades initialGlobals) 4750 temp Hs) as [_ Hbetween].
  split; [exact Hs|]. split; eexists; split.
  - eapply Hexact; [right; left; reflexivity|reflexivity].
  - vm_compute. reflexivity.
  - eapply (Hbetween []); reflexivity.
  - vm_compute. reflexivity.
Defined.

(** C8.  Reads below the ground sample and above the top sample of the
    initial stack raise. *)
Lemma getDataAt_out_of_range_witness :
  getDataAt (-5) temp (initialStack decades initialGlobals) = Throw TypeError
  /\ getDataAt 10500 wind (initialStack decades initialGlobals) = Throw TypeError.
Proof.
  split; apply getDataAt_out_of_range.
  - left. repeat constructor.
  - right. repeat constructor.
Defined.

(** C9.  Writes below the ground sample and above the top sample of the
    initial stack raise and leave the stack alone. *)
Lemma setDataAt_out_of_range_witness :
  setDataAt decades initialGlobals (-5) temp 30 (initialStack decades initialGlobals)
  = (Throw TypeError, initialStack decades initialGlobals)
  /\ setDataAt decades initialGlobals 10500 wind 3 (initialStack decades initialGlobals)
     = (Throw TypeError, initialStack decades initialGlobals).
Proof.
  split; apply setDataAt_out_of_range.
  - left. repeat constructor.
  - right. repeat constructor.
Defined.

(** C4.  The sample at the ground of [saturatedStack] is built with the
    dew point of saturated air at 0 degrees, which is 0 degrees.  After its
    humidity is set to a tenth of that, the stored dew point is still 0,
    while the dew point of its temperature and new humidity is about -28
    degrees. *)
Lemma setDataAt_keeps_stored_dewPoint :
  exists s' rest,
    setDataAt decades initialGlobals 0 humidity 0.5018 (saturatedStack decades)
    = (Ok tt, s' :: rest)
    /\ Meteo.alt s' == 0
    /\ Meteo.humidity s' == 0.5018
    /\ Meteo.dewPoint s' == 0
    /\ getDewPoint decades (Meteo.temp s')
         (getRelativeHumidity decades (Meteo.humidity s') (Meteo.alt s')
            (getPressureAtAltitude decades (groundPressure initialGlobals)
               (Meteo.alt s') (Meteo.temp s'))
            (Meteo.temp s'))
       < -28
    /\ ~ Meteo.dewPoint s'
         == getDewPoint decades (Meteo.temp s')
              (getRelativeHumidity decades (Meteo.humidity s') (Meteo.alt s')
                 (getPressureAtAltitude decades (groundPressure initialGlobals)
                    (Meteo.alt s') (Meteo.temp s'))
                 (Meteo.temp s')).
Proof.
  do 2 eexists. split; [vm_compute; reflexivity|].
  repeat split; try (vm_compute; reflexivity).
  vm_compute. discriminate.
Defined.

(** C4.  The same write, through the theorem. *)
Lemma setDataAt_existing_assigns_field_only_witness :
  exists s',
    setDataAt decades initialGlobals 0 humidity 0.5018 (saturatedStack decades)
    = (Ok tt, s' :: tl (saturatedStack decades))
    /\ Meteo.humidity s' = 0.5018
    /\ Meteo.dewPoint s' = Meteo.dewPoint (hd s' (saturatedStack decades)).
Proof.
  destruct (setDataAt_existing_assigns_field_only decades initialGlobals []
              (tl (saturatedStack decades))
              (MeteoData decades initialGlobals 0 0 0.0 5.018)
              0 humidity 0.5018)
    as (s' & Hset & Hget & _ & _ & Hdew).
  - repeat constructor.
  - reflexivity.
  - exists s'. split; [exact Hset|]. split; [exact Hget|exact Hdew].
Defined.

(** C10.  The top sample of the initial stack is at -20 degrees. *)
Lemma negative_fit_never_saturates_witness :
  getSaturatedDensityFor decades (-20) < 0
  /\ exists st' b,
      body decades initialGlobals (initialStack decades initialGlobals)
        calculationsMaxHeight
        (mkLoopState (Data.mk calculationsMaxHeight calculationsMaxHeight [])
           (initialImpulse initialGlobals)
           (levelOf decades initialGlobals 0.0 25))
      = Ok (st', b)
      /\ Data.cloudBase (data st') = calculationsMaxHeight.
Proof.
  destruct (negative_fit_never_saturates decades initialGlobals
              (initialStack decades initialGlobals) calculationsMaxHeight (-20.0)
              (mkLoopState (Data.mk calculationsMaxHeight calculationsMaxHeight [])
                 (initialImpulse initialGlobals)
                 (levelOf decades initialGlobals 0.0 25)))
    as (Hfit & _ & _ & st' & b & Hb & Hcb).
  - vm_compute. discriminate.
  - vm_compute. reflexivity.
  - vm_compute. reflexivity.
  - split; [exact Hfit|]. exists st', b. split; [exact Hb|exact Hcb].
Defined.


(** The run on the initial stack with the initial settings: 35 passes,
    the thermal stops at 3500 m, the cloud base is a little below 2000 m. *)
Lemma initial_run :
  returned
    (getThermalData decades initialGlobals (initialStack decades initialGlobals))
    (fun d =>
       length (Data.strength d) = 35%nat
       /\ Data.thermalTop d == 3500
       /\ 1995 < Data.cloudBase d /\ Data.cloudBase d < 1996).
Proof.
  vm_compute. repeat split.
Qed.

(** C3.  In [calmStack] the impulse is exactly zero after the pass at
    100 m; the loop goes on and the thermal top is 200 m, where the impulse
    is below zero. *)
Lemma thermalTop_not_at_zero_impulse :
  returned (getThermalData decades calmGlobals (calmStack decades))
    (fun d =>
       exists p,
         find (fun p => Qle_bool (Point.impulse p) 0) (Data.strength d) = Some p
         /\ Point.altitude p == 100
         /\ Point.impulse p == 0
         /\ Data.thermalTop d == 200
         /\ ~ Data.thermalTop d == Point.altitude p).
Proof.
  vm_compute. eexists. split; [reflexivity|].
  repeat split. discriminate.
Defined.

Lemma thermalTop_first_negative_witness :
  returned
    (getThermalData_within decades initialGlobals 100
       (initialStack decades initialGlobals))
    (fun d =>
       Data.thermalTop d
       = match find negative (Data.strength d) with
         | Some p => Point.altitude p
         | None => calculationsMaxHeight
         end).
Proof.
  apply returned_intro; [vm_compute; reflexivity|].
  intros d Hd.
  exact (thermalTop_first_negative decades initialGlobals
           (initialStack decades initialGlobals) 100 d Hd).
Defined.

(** C5.  In [unstableStack] no impulse is below zero: the series has 99
    entries, the last one at 9900 m, and [thermalTop] is 10000. *)
Lemma strength_stops_below_ceiling :
  returned (getThermalData decades dryGlobals (unstableStack decades))
    (fun d =>
       find negative (Data.strength d) = None
       /\ length (Data.strength d) = 99%nat
       /\ Point.altitude (last (Data.strength d) (Point.mk 0 0)) == 9900
       /\ Data.thermalTop d == 10000
       /\ ~ Point.altitude (last (Data.strength d) (Point.mk 0 0))
           == Data.thermalTop d).
Proof.
  vm_compute. repeat split. discriminate.
Defined.

Lemma strength_one_entry_per_pass_witness :
  returned
    (getThermalData_within decades dryGlobals 100 (unstableStack decades))
    (fun d =>
       (forall k, (k < length (Data.strength d))%nat ->
          Point.altitude (nth k (Data.strength d) (Point.mk 0 0))
          == inject_Z (Z.of_nat (S k)) * 100)
       /\ (forall j k, (j < k)%nat -> (k < length (Data.strength d))%nat ->
             Point.altitude (nth j (Data.strength d) (Point.mk 0 0))
             < Point.altitude (nth k (Data.strength d) (Point.mk 0 0)))).
Proof.
  apply returned_intro; [vm_compute; reflexivity|].
  intros d Hd.
  destruct (strength_one_entry_per_pass decades dryGlobals
              (unstableStack decades) 100 d Hd) as (Hk & Hasc & _).
  split.
  - intros k Hlt. apply (Hk k Hlt).
  - apply Hasc. reflexivity.
Defined.

(** C6.  Air at 3 degrees on the ground and at 200 m, 3.0625 degrees at
    100 m, 9.9705528715635 g/m3 of water and a [solarStrength] of 0.5.  The
    pass at 100 m is saturated and records the crossing altitude 10000; the
    pass at 200 m is saturated as well and records -9800, which is what
    [getThermalData] returns, with a thermal top of 200. *)
Lemma cloudBase_recorded_again_witness :
  exists st st1 d,
    Doubles.enter Doubles.products Doubles.fogGlobals Doubles.fogStack = Ok st
    /\ Doubles.body Doubles.products Doubles.fogGlobals Doubles.fogStack 100 st
       = Ok (st1, false)
    /\ Doubles.getThermalData_within Doubles.products Doubles.fogGlobals 100
         Doubles.fogStack
       = Some (Ok d)
    /\ Doubles.Data.cloudBase (Doubles.data st1) = 10000%float
    /\ Doubles.Data.cloudBase d = (-9800)%float
    /\ Doubles.Data.thermalTop d = 200%float
    /\ length (Doubles.Data.strength d) = 2%nat.
Proof.
  destruct (Doubles.enter Doubles.products Doubles.fogGlobals Doubles.fogStack)
    as [st|e] eqn:E0; [|vm_compute in E0; discriminate].
  destruct (Doubles.body Doubles.products Doubles.fogGlobals Doubles.fogStack 100 st)
    as [[st1 [|]]|e] eqn:E1;
    [vm_compute in E0; injection E0 as <-; vm_compute in E1; discriminate| |
     vm_compute in E0; injection E0 as <-; vm_compute in E1; discriminate].
  destruct (Doubles.getThermalData_within Doubles.products Doubles.fogGlobals 100
              Doubles.fogStack) as [[d|e]|] eqn:E2;
    [|vm_compute in E2; discriminate|vm_compute in E2; discriminate].
  exists st, st1, d. split; [reflexivity|]. split; [exact E1|].
  split; [reflexivity|].
  destruct (cloudBase_recorded_again Doubles.products Doubles.fogGlobals
              Doubles.fogStack 3.0625 3 st st1 100 d) as [H1 H2].
  - exact E0.
  - reflexivity.
  - reflexivity.
  - reflexivity.
  - reflexivity.
  - reflexivity.
  - reflexivity.
  - vm_compute in E0. injection E0 as <-. vm_compute. reflexivity.
  - reflexivity.
  - exact E1.
  - exact E2.
  - rewrite H1, H2.
    vm_compute in E0. injection E0 as <-.
    vm_compute in E2. injection E2 as <-.
    repeat split; vm_compute; reflexivity.
Defined.

(** On the initial stack the first saturated pass is the one at 2000 m,
    and the crossing altitude is not the ceiling. *)
Lemma initial_run_saturation :
  returned
    (getThermalData_within decades initialGlobals 100
       (initialStack decades initialGlobals))
    (fun d =>
       match first_saturation decades initialGlobals
               (initialStack decades initialGlobals)
               (levelAt decades initialGlobals
                  (initialStack decades initialGlobals) 0.0)
               (map Point.altitude (Data.strength d)) with
       | Some (p, c) =>
           Level.alt c == 2000
           /\ Qeq_bool (crossing p c) calculationsMaxHeight = false
       | None => False
       end).
Proof.
  vm_compute. split; reflexivity.
Defined.

(** X27.  The run on the initial stack with the initial settings. *)
Lemma cloudBase_first_saturation_witness :
  returned
    (getThermalData_within decades initialGlobals 100
       (initialStack decades initialGlobals))
    (fun d =>
       match first_saturation decades initialGlobals
               (initialStack decades initialGlobals)
               (levelAt decades initialGlobals
                  (initialStack decades initialGlobals) 0.0)
               (map Point.altitude (Data.strength d)) with
       | Some (p, c) =>
           Level.alt c == 2000
           /\ ~ crossing p c == calculationsMaxHeight
           /\ Data.cloudBase d = crossing p c
       | None => False
       end).
Proof.
  apply returned_intro; [vm_compute; reflexivity|].
  intros d Hd.
  pose proof (cloudBase_first_saturation decades initialGlobals
                (initialStack decades initialGlobals) 100 d Hd) as H.
  pose proof (returned_elim _ _ d initial_run_saturation Hd) as Hfact.
  cbv beta in Hfact.
  destruct (first_saturation decades initialGlobals
              (initialStack decades initialGlobals)
              (levelAt decades initialGlobals
                 (initialStack decades initialGlobals) 0.0)
              (map Point.altitude (Data.strength d)))
    as [[p c]|]; [|contradiction].
  destruct Hfact as [Halt Hne]. apply Qeq_bool_neq in Hne.
  split; [exact Halt|]. split; [exact Hne|]. exact (H Hne).
Defined.

(** The impulses of the run on the initial stack with the initial
    settings: 1.548 to begin with, 1.672 after the pass at 100 m, and below
    zero after the 35th pass. *)
Lemma initial_run_impulses :
  1.54 < impulseAfter decades initialGlobals (initialStack decades initialGlobals) 0
  /\ impulseAfter decades initialGlobals (initialStack decades initialGlobals) 0 < 1.55
  /\ 1.67 < impulseAfter decades initialGlobals (initialStack decades initialGlobals) 1
  /\ impulseAfter decades initialGlobals (initialStack decades initialGlobals) 1 < 1.68
  /\ impulseAfter decades initialGlobals (initialStack decades initialGlobals) 35 < 0.
Proof.
  vm_compute. repeat split.
Qed.

(** C7.  The run on the initial stack with the initial settings has 35
    entries.  The first is the pass at 100 m, with an impulse between 1.67
    and 1.68 (the initial impulse, between 1.54 and 1.55, plus the
    increment of a step that cools by 0.7 degrees); the last is the 35th
    pass, with the first impulse below zero. *)
Lemma impulse_recurrence_witness :
  returned
    (getThermalData_within decades initialGlobals 100
       (initialStack decades initialGlobals))
    (fun d =>
       let ws := initialStack decades initialGlobals in
       length (Data.strength d) = 35%nat
       /\ nth 0 (Data.strength d) (Point.mk 0 0)
          = Point.mk (altitudeOfPass initialGlobals 1)
              (impulseAfter decades initialGlobals ws 1)
       /\ altitudeOfPass initialGlobals 1 == 100
       /\ 1.54 < impulseAfter decades initialGlobals ws 0
       /\ impulseAfter decades initialGlobals ws 0 < 1.55
       /\ 1.67 < Point.impulse (nth 0 (Data.strength d) (Point.mk 0 0))
       /\ Point.impulse (nth 0 (Data.strength d) (Point.mk 0 0)) < 1.68
       /\ nth 34 (Data.strength d) (Point.mk 0 0)
          = Point.mk (altitudeOfPass initialGlobals 35)
              (impulseAfter decades initialGlobals ws 35)
       /\ Point.impulse (nth 34 (Data.strength d) (Point.mk 0 0)) < 0).
Proof.
  apply returned_intro; [vm_compute; reflexivity|].
  intros d Hd. cbv zeta.
  destruct (impulse_recurrence decades initialGlobals
              (initialStack decades initialGlobals) 100 d Hd)
    as (_ & _ & Hk & _).
  pose proof (returned_elim _ _ d initial_run Hd) as Hrun. cbv beta in Hrun.
  destruct Hrun as (Hn & _).
  destruct initial_run_impulses as (H0 & H0' & H1 & H1' & H35).
  rewrite Hn in Hk.
  destruct (Hk 0%nat ltac:(lia)) as (E0 & _).
  destruct (Hk 34%nat ltac:(lia)) as (E34 & _).
  split; [exact Hn|]. split; [exact E0|]. split; [reflexivity|].
  split; [exact H0|]. split; [exact H0'|].
  rewrite E0, E34. cbn [Point.impulse].
  split; [exact H1|]. split; [exact H1'|]. split; [reflexivity|exact H35].
Defined.

(** * Further properties of the profile *)

Section Locating.

Variable altitude : Q.

(** Where an altitude lies in an ascending stack: on a sample, below all
    samples, above all samples, or strictly between two neighbours. *)
Inductive located (ws : weatherStack) : Prop :=
| located_on l1 s l2 :
    ws = l1 ++ s :: l2 -> Meteo.alt s == altitude -> located ws
| located_under :
    Forall (fun s => altitude < Meteo.alt s) ws -> located ws
| located_over :
    ws <> [] -> Forall (fun s => Meteo.alt s < altitude) ws -> located ws
| located_between l1 lo hi l2 :
    ws = l1 ++ lo :: hi :: l2 ->
    Meteo.alt lo < altitude -> altitude < Meteo.alt hi -> located ws.

Lemma ascending_located (ws : weatherStack) : ascending ws -> located ws.
Proof.
  induction 1 as [|c rest Hrest IH Hc].
  - apply located_under. constructor.
  - destruct (Qlt_le_dec altitude (Meteo.alt c)) as [Hlt|Hge].
    + apply located_under. constructor; [exact Hlt|].
      rewrite Forall_forall in *. intros s Hs. specialize (Hc s Hs). lra.
    + destruct (Qeq_dec (Meteo.alt c) altitude) as [Heq|Hne].
      * apply (located_on _ [] c rest); [reflexivity|exact Heq].
      * assert (Hc' : Meteo.alt c < altitude) by lra.
        destruct IH as [l1 s l2 -> Hs|Hunder|Hne' Hover|l1 lo hi l2 -> Hlo Hhi].
        -- apply (located_on _ (c :: l1) s l2); [reflexivity|exact Hs].
        -- destruct rest as [|hi rest'].
           ++ apply located_over; [discriminate|]. constructor; [exact Hc'|constructor].
           ++ apply (located_between _ [] c hi rest'); [reflexivity|exact Hc'|].
              inversion Hunder; assumption.
        -- apply located_over; [discriminate|]. constructor; assumption.
        -- apply (located_between _ (c :: l1) lo hi l2); [reflexivity|assumption|assumption].
Qed.

End Locating.

Lemma ascending_app_cons (l1 l2 : list Meteo.t) (s : Meteo.t) :
  ascending (l1 ++ s :: l2) ->
  Forall (fun x => Meteo.alt x < Meteo.alt s) l1
  /\ Forall (fun x => Meteo.alt s < Meteo.alt x) l2.
Proof.
  induction l1 as [|c l1 IH]; simpl; intros H; inversion H as [|? ? Hrest Hc]; subst.
  - split; [constructor|exact Hc].
  - destruct (IH Hrest) as [H1 H2]. split; [|exact H2].
    constructor; [|exact H1].
    rewrite Forall_forall in Hc. apply Hc, in_or_app. right. left. reflexivity.
Qed.

(** A scan that has only lower samples in front of a sample at the
    altitude returns that sample's field, whatever follows. *)
Lemma getDataAt_loop_reaches (altitude : Q) (f : fieldName)
      (l1 l2 : list Meteo.t) (s : Meteo.t) :
  Forall (fun x => Meteo.alt x < altitude) l1 ->
  Meteo.alt s == altitude ->
  forall below,
    getDataAt_loop altitude f (l1 ++ s :: l2) below = Returned (get_field s f).
Proof.
  intros H1 Hs. induction H1 as [|c l1 Hc _ IH]; intros below; simpl.
  - apply Qeq_bool_iff in Hs. rewrite Hs. reflexivity.
  - repeat branch. apply IH.
Qed.

(** What [setDataAt] does off the samples (helpers for the properties
    below). *)
Lemma setDataAt_outside (M : MathLib) (G : Globals) (ws : weatherStack)
      (altitude : Q) (f : fieldName) (value : Q) :
  Forall (fun s => altitude < Meteo.alt s) ws
  \/ Forall (fun s => Meteo.alt s < altitude) ws ->
  setDataAt M G altitude f value ws = (Throw TypeError, ws).
Proof.
  intros H. unfold setDataAt.
  assert (Hloop : exists b, setDataAt_loop altitude f value ws 0 None = inr b).
  { destruct H as [H|H].
    - exists None. apply setDataAt_loop_all_above; assumption.
    - apply setDataAt_loop_all_below; assumption. }
  destruct Hloop as [b ->].
  unfold AutoMeteoData, getTemperatureAt.
  rewrite (getDataAt_outside altitude temp ws H). reflexivity.
Qed.

Lemma setDataAt_inserted (M : MathLib) (G : Globals)
      (l1 l2 : list Meteo.t) (lo hi : Meteo.t)
      (altitude : Q) (f : fieldName) (value : Q) :
  ascending (l1 ++ lo :: hi :: l2) ->
  Meteo.alt lo < altitude -> altitude < Meteo.alt hi ->
  exists newField,
    setDataAt M G altitude f value (l1 ++ lo :: hi :: l2)
    = (Ok tt, l1 ++ newField :: lo :: hi :: l2)
    /\ Meteo.alt newField = altitude
    /\ get_field newField f = value.
Proof.
  intros Hs Hlo Hhi. unfold setDataAt.
  rewrite (setDataAt_loop_between altitude f value l1 l2 lo hi Hs Hlo Hhi).
  unfold AutoMeteoData, getDewPointAt, getTemperatureAt, getWindAt,
    getAbsoluteHumidityAt, getDataAt.
  rewrite !(getDataAt_loop_between altitude _ l1 l2 lo hi Hs Hlo Hhi).
  simpl rbind. change (0 + length l1)%nat with (length l1).
  eexists. split; [|split].
  - rewrite splice_at_length. reflexivity.
  - rewrite set_field_alt. reflexivity.
  - apply get_set_field.
Qed.

(** X1.  A write that succeeds on an ascending stack can be read back: the
    read at the same altitude and field returns the value written, whether
    the write assigned an existing sample or inserted a new one. *)
Theorem setDataAt_then_getDataAt (M : MathLib) (G : Globals) (ws ws' : weatherStack)
        (altitude : Q) (f : fieldName) (value : Q) :
  ascending ws ->
  setDataAt M G altitude f value ws = (Ok tt, ws') ->
  getDataAt altitude f ws' = Ok value.
Proof.
  intros Hs Hset.
  destruct (ascending_located altitude ws Hs)
    as [l1 s l2 -> Heq|Hunder|_ Hover|l1 lo hi l2 -> Hlo Hhi].
  - unfold setDataAt in Hset.
    rewrite (setDataAt_loop_exact altitude f value l1 l2 s Hs Heq) in Hset.
    injection Hset as <-. unfold getDataAt.
    destruct (ascending_app_cons _ _ _ Hs) as [H1 _].
    rewrite (getDataAt_loop_reaches altitude f l1 l2 (set_field s f value)).
    + rewrite get_set_field. reflexivity.
    + eapply Forall_impl; [|exact H1]. intros x Hx. simpl in Hx. lra.
    + rewrite set_field_alt. exact Heq.
  - rewrite (setDataAt_outside M G ws altitude f value (or_introl Hunder)) in Hset.
    discriminate.
  - rewrite (setDataAt_outside M G ws altitude f value (or_intror Hover)) in Hset.
    discriminate.
  - destruct (setDataAt_inserted M G l1 l2 lo hi altitude f value Hs Hlo Hhi)
      as (newField & Hnew & Halt & Hget).
    rewrite Hnew in Hset. injection Hset as <-. unfold getDataAt.
    destruct (ascending_app_cons _ _ _ Hs) as [H1 _].
    rewrite (getDataAt_loop_reaches altitude f l1 (lo :: hi :: l2) newField).
    + rewrite Hget. reflexivity.
    + eapply Forall_impl; [|exact H1]. intros x Hx. simpl in Hx. lra.
    + rewrite Halt. reflexivity.
Qed.

(** The scan of [getDataAt] looks at altitudes and at the field asked for,
    and at nothing else. *)
Definition same_for (f : fieldName) (x y : Meteo.t) : Prop :=
  Meteo.alt x = Meteo.alt y /\ get_field x f = get_field y f.

Lemma getDataAt_same_for (altitude : Q) (f : fieldName) (ws ws' : weatherStack) :
  Forall2 (same_for f) ws ws' ->
  getDataAt altitude f ws = getDataAt altitude f ws'.
Proof.
  intros H. unfold getDataAt.
  assert (Hloop : forall b b',
             match b, b' with
             | Some x, Some y => same_for f x y
             | None, None => True
             | _, _ => False
             end ->
             match getDataAt_loop altitude f ws b, getDataAt_loop altitude f ws' b' with
             | Returned v, Returned v' => v = v'
             | FellThrough lo hi, FellThrough lo' hi' =>
                 match lo, lo' with
                 | Some x, Some y => same_for f x y
                 | None, None => True
                 | _, _ => False
                 end
                 /\ match hi, hi' with
                    | Some x, Some y => same_for f x y
                    | None, None => True
                    | _, _ => False
                    end
             | _, _ => False
             end).
  { induction H as [|c c' rest rest' [Ha Hf] _ IH]; intros b b' Hb; simpl.
    - split; [exact Hb|exact I].
    - rewrite <- Ha.
      destruct (Qeq_bool (Meteo.alt c) altitude); [exact Hf|].
      destruct (Qltb (Meteo.alt c) altitude); [apply IH; split; assumption|].
      destruct (Qltb altitude (Meteo.alt c)); [|apply IH; exact Hb].
      split; [exact Hb|split; assumption]. }
  specialize (Hloop None None I).
  destruct (getDataAt_loop altitude f ws None) as [v|lo hi],
           (getDataAt_loop altitude f ws' None) as [v'|lo' hi']; try contradiction.
  - rewrite Hloop. reflexivity.
  - destruct Hloop as [Hlo Hhi].
    destruct lo as [lo|], lo' as [lo'|]; try contradiction; [|reflexivity].
    destruct hi as [hi|], hi' as [hi'|]; try contradiction; [|reflexivity].
    destruct Hlo as [-> ->], Hhi as [-> ->]. reflexivity.
Qed.

Lemma Forall2_same_for_refl (f : fieldName) (l : list Meteo.t) :
  Forall2 (same_for f) l l.
Proof.
  induction l; constructor; [split; reflexivity|assumption].
Qed.

Lemma ascending_same_alts (ws ws' : weatherStack) :
  map Meteo.alt ws = map Meteo.alt ws' -> ascending ws -> ascending ws'.
Proof.
  revert ws'. induction ws as [|c rest IH]; intros [|c' rest'] Hm Hs;
    try discriminate; [constructor|].
  simpl in Hm. injection Hm as Hc Hrest.
  inversion Hs as [|? ? Hs' Hall]; subst.
  constructor; [apply IH; assumption|].
  rewrite Forall_forall in *. intros y Hy.
  apply (in_map Meteo.alt) in Hy. rewrite <- Hrest in Hy.
  apply in_map_iff in Hy. destruct Hy as (x & Hx & Hin).
  rewrite <- Hx, <- Hc. apply Hall. exact Hin.
Qed.

Lemma between_holds_no_sample (l1 l2 : list Meteo.t) (lo hi : Meteo.t) (altitude : Q) :
  ascending (l1 ++ lo :: hi :: l2) ->
  Meteo.alt lo < altitude -> altitude < Meteo.alt hi ->
  existsb (fun s => Qeq_bool (Meteo.alt s) altitude) (l1 ++ lo :: hi :: l2) = false.
Proof.
  intros Hs Hlo Hhi.
  destruct (ascending_app_cons _ _ _ Hs) as [H1 _].
  assert (Hs' : ascending ((l1 ++ [lo]) ++ hi :: l2))
    by (rewrite <- app_assoc; exact Hs).
  destruct (ascending_app_cons _ _ _ Hs') as [_ H2].
  apply not_true_is_false. intros He.
  apply existsb_exists in He. destruct He as (x & Hin & Hx).
  apply Qeq_bool_iff in Hx. rewrite Forall_forall in H1, H2.
  apply in_app_or in Hin. destruct Hin as [Hin|[<-|[<-|Hin]]].
  - specialize (H1 x Hin). lra.
  - lra.
  - lra.
  - specialize (H2 x Hin). lra.
Qed.

(** X2.  A write that succeeds on an ascending stack leaves the number of
    samples as it was when the stack has a sample at the altitude, and adds
    exactly one sample when it has none. *)
Theorem setDataAt_length (M : MathLib) (G : Globals) (ws ws' : weatherStack)
        (altitude : Q) (f : fieldName) (value : Q) :
  ascending ws ->
  setDataAt M G altitude f value ws = (Ok tt, ws') ->
  length ws'
  = if existsb (fun s => Qeq_bool (Meteo.alt s) altitude) ws
    then length ws else S (length ws).
Proof.
  intros Hs Hset.
  destruct (ascending_located altitude ws Hs)
    as [l1 s l2 -> Heq|Hunder|_ Hover|l1 lo hi l2 -> Hlo Hhi].
  - unfold setDataAt in Hset.
    rewrite (setDataAt_loop_exact altitude f value l1 l2 s Hs Heq) in Hset.
    injection Hset as <-.
    assert (He : existsb (fun s => Qeq_bool (Meteo.alt s) altitude) (l1 ++ s :: l2) = true).
    { apply existsb_exists. exists s. split; [apply in_or_app; right; left; reflexivity|].
      apply Qeq_bool_iff. exact Heq. }
    rewrite He, !length_app. reflexivity.
  - rewrite (setDataAt_outside M G ws altitude f value (or_introl Hunder)) in Hset.
    discriminate.
  - rewrite (setDataAt_outside M G ws altitude f value (or_intror Hover)) in Hset.
    discriminate.
  - destruct (setDataAt_inserted M G l1 l2 lo hi altitude f value Hs Hlo Hhi)
      as (newField & Hnew & _).
    rewrite Hnew in Hset. injection Hset as <-.
    rewrite (between_holds_no_sample l1 l2 lo hi altitude Hs Hlo Hhi).
    rewrite !length_app. simpl. lia.
Qed.

(** X3.  A write at an altitude that has a sample keeps the stack
    ascending with the same altitudes, and leaves what [getDataAt] returns
    for the other fields unchanged at every altitude. *)
Theorem setDataAt_existing_frame (M : MathLib) (G : Globals) (ws : weatherStack)
        (s : Meteo.t) (altitude : Q) (f : fieldName) (value : Q) :
  ascending ws -> In s ws -> Meteo.alt s == altitude ->
  exists ws',
    setDataAt M G altitude f value ws = (Ok tt, ws')
    /\ map Meteo.alt ws' = map Meteo.alt ws
    /\ ascending ws'
    /\ forall a f', f' <> f -> getDataAt a f' ws' = getDataAt a f' ws.
Proof.
  intros Hs Hin Heq. destruct (in_split _ _ Hin) as (l1 & l2 & ->).
  exists (l1 ++ set_field s f value :: l2). unfold setDataAt.
  rewrite (setDataAt_loop_exact altitude f value l1 l2 s Hs Heq).
  assert (Hm : map Meteo.alt (l1 ++ set_field s f value :: l2)
               = map Meteo.alt (l1 ++ s :: l2)).
  { rewrite !map_app. simpl. rewrite set_field_alt. reflexivity. }
  split; [reflexivity|]. split; [exact Hm|]. split.
  - apply (ascending_same_alts (l1 ++ s :: l2)); [symmetry; exact Hm|exact Hs].
  - intros a f' Hf. apply getDataAt_same_for.
    apply Forall2_app; [apply Forall2_same_for_refl|].
    constructor; [|apply Forall2_same_for_refl].
    split; [apply set_field_alt|].
    destruct f, f'; try reflexivity; contradiction.
Qed.

(** X4.  After a write has inserted a sample between the first two samples
    of an ascending stack, every read below the new altitude raises, the
    read at the first sample's own altitude included. *)
Theorem setDataAt_insert_hides_ground (M : MathLib) (G : Globals)
        (lo hi : Meteo.t) (l2 : list Meteo.t) (ws' : weatherStack)
        (altitude : Q) (f : fieldName) (value : Q) :
  ascending (lo :: hi :: l2) ->
  Meteo.alt lo < altitude -> altitude < Meteo.alt hi ->
  setDataAt M G altitude f value (lo :: hi :: l2) = (Ok tt, ws') ->
  forall a f', a < altitude -> getDataAt a f' ws' = Throw TypeError.
Proof.
  intros Hs Hlo Hhi Hset a f' Ha.
  destruct (setDataAt_inserted M G [] l2 lo hi altitude f value Hs Hlo Hhi)
    as (newField & Hnew & Halt & _).
  simpl in Hnew. rewrite Hnew in Hset. injection Hset as <-.
  unfold getDataAt. simpl. rewrite Halt.
  apply Qltb_lt in Ha. rewrite Ha.
  destruct (Qeq_bool altitude a) eqn:E; order_facts; [lra|].
  destruct (Qltb altitude a) eqn:E'; order_facts; [lra|]. reflexivity.
Qed.

(** X5.  Between two neighbouring samples of an ascending stack the value
    read lies between the two stored values: interpolation never
    overshoots. *)
Theorem getDataAt_between_bounds (l1 l2 : list Meteo.t) (lo hi : Meteo.t)
        (altitude : Q) (f : fieldName) :
  ascending (l1 ++ lo :: hi :: l2) ->
  Meteo.alt lo < altitude -> altitude < Meteo.alt hi ->
  exists v,
    getDataAt altitude f (l1 ++ lo :: hi :: l2) = Ok v
    /\ (get_field lo f <= get_field hi f -> get_field lo f <= v /\ v <= get_field hi f)
    /\ (get_field hi f <= get_field lo f -> get_field hi f <= v /\ v <= get_field lo f).
Proof.
  intros Hs Hlo Hhi. unfold getDataAt.
  rewrite (getDataAt_loop_between altitude f l1 l2 lo hi Hs Hlo Hhi).
  eexists. split; [reflexivity|].
  set (t := (altitude - Meteo.alt lo) / (Meteo.alt hi - Meteo.alt lo)).
  assert (Ht0 : 0 < t) by (unfold t; apply Qlt_shift_div_l; lra).
  assert (Ht1 : t < 1) by (unfold t; apply Qlt_shift_div_r; lra).
  split; intros Hle; split; nra.
Qed.

(** X6.  On an ascending stack a read succeeds exactly at the altitudes
    that have a sample at or below them and a sample at or above them. *)
Theorem getDataAt_succeeds_iff_covered (ws : weatherStack) (altitude : Q) (f : fieldName) :
  ascending ws ->
  (exists v, getDataAt altitude f ws = Ok v)
  <-> (exists s, In s ws /\ Meteo.alt s <= altitude)
      /\ (exists s, In s ws /\ altitude <= Meteo.alt s).
Proof.
  intros Hs. split.
  - intros [v Hv].
    destruct (ascending_located altitude ws Hs)
      as [l1 s l2 -> Heq|Hunder|_ Hover|l1 lo hi l2 -> Hlo Hhi].
    + split; exists s; (split; [apply in_or_app; right; left; reflexivity|lra]).
    + rewrite (getDataAt_outside altitude f ws (or_introl Hunder)) in Hv. discriminate.
    + rewrite (getDataAt_outside altitude f ws (or_intror Hover)) in Hv. discriminate.
    + split.
      * exists lo. split; [apply in_or_app; right; left; reflexivity|lra].
      * exists hi. split; [apply in_or_app; right; right; left; reflexivity|lra].
  - intros [Hlo Hhi]. apply getDataAt_covered; assumption.
Qed.

(** X7.  At the altitude of a sample built by [MeteoData], the dew point
    computed on demand by [getDewPointAt] is the dew point stored in the
    sample. *)
Theorem getDewPointAt_of_constructed (M : MathLib) (G : Globals) (ws : weatherStack)
        (altitude temperature wind' humidity' : Q) :
  ascending ws ->
  In (MeteoData M G altitude temperature wind' humidity') ws ->
  getDewPointAt M G altitude ws
  = Ok (Meteo.dewPoint (MeteoData M G altitude temperature wind' humidity')).
Proof.
  intros Hs Hin. unfold getDewPointAt, getTemperatureAt, getAbsoluteHumidityAt, getDataAt.
  rewrite !(getDataAt_loop_exact altitude _ ws _ Hs Hin (Qeq_refl _)).
  reflexivity.
Qed.

(** * Further properties of the simulation *)

Section Runs.

Context (M : MathLib) (G : Globals) (ws : weatherStack).

(** X8.  Without a sample at or below the ground (the empty stack
    included), or without one at or above it, [getThermalData] raises before
    its first pass. *)
Theorem getThermalData_needs_ground (fuel : nat) :
  Forall (fun s => 0 < Meteo.alt s) ws \/ Forall (fun s => Meteo.alt s < 0) ws ->
  getThermalData_within M G fuel ws = Some (Throw TypeError).
Proof.
  intros H. unfold getThermalData_within, enter, getTemperatureAt.
  rewrite (getDataAt_outside 0.0 temp ws); [reflexivity|].
  destruct H as [H|H]; [left|right];
    (eapply Forall_impl; [|exact H]); intros s Hs; simpl in Hs; lra.
Qed.

Lemma runs_first_pass (altitude : Q) (st : loopState) (pts : list Point.t) (d : Data.t) :
  runs M G ws altitude st pts d ->
  (altitude < calculationsMaxHeight -> pts <> [])
  /\ (calculationsMaxHeight <= altitude -> pts = []).
Proof.
  destruct 1; split; intro; try discriminate; try reflexivity; lra.
Qed.

(** X9.  With a positive [calculationResolution] below the ceiling, a run
    that returns has made at least one pass, and [thermalTop] lies between
    [calculationResolution] and [calculationsMaxHeight]; with a resolution
    at or above the ceiling there is no pass at all. *)
Theorem thermalTop_bounds (fuel : nat) (d : Data.t) :
  getThermalData_within M G fuel ws = Some (Ok d) ->
  0 < calculationResolution G ->
  Data.thermalTop d <= calculationsMaxHeight
  /\ (calculationResolution G < calculationsMaxHeight ->
      Data.strength d <> [] /\ calculationResolution G <= Data.thermalTop d)
  /\ (calculationsMaxHeight <= calculationResolution G ->
      Data.strength d = [] /\ Data.thermalTop d = calculationsMaxHeight).
Proof.
  intros H Hres.
  destruct (getThermalData_runs M G ws fuel d H) as (t0 & _ & Hr).
  pose proof (runs_thermalTop M G ws _ _ _ _ Hr) as Ht.
  pose proof (runs_altitudes M G ws _ _ _ _ Hr) as Ha.
  pose proof (runs_first_pass _ _ _ _ Hr) as [Hne He].
  assert (Hb : calculationResolution G <= Data.thermalTop d
               /\ Data.thermalTop d <= calculationsMaxHeight
               \/ Data.thermalTop d = calculationsMaxHeight).
  { destruct (find negative (Data.strength d)) as [p|] eqn:Ef.
    - destruct Ht as [Ht _]. left.
      apply find_some in Ef. destruct Ef as [Hin _].
      destruct (In_nth _ _ (Point.mk 0 0) Hin) as (k & Hk & Hnth).
      destruct (Ha k Hk) as [E Hlt]. rewrite Hnth in E, Hlt. rewrite Ht.
      assert (0 <= inject_Z (Z.of_nat k)) by (rewrite <- (Zle_Qle 0); lia).
      split; [|lra]. rewrite E. nra.
    - right. destruct Ht as [Ht _]. exact Ht. }
  split; [|split].
  - destruct Hb as [[_ Hb]|Hb]; [exact Hb|rewrite Hb; lra].
  - intros Hlt. split; [exact (Hne Hlt)|].
    destruct Hb as [[Hb _]|Hb]; [exact Hb|rewrite Hb; lra].
  - intros Hge. pose proof (He Hge) as Hnil. split; [exact Hnil|].
    rewrite Hnil in Ht. simpl in Ht. destruct Ht as [Ht _]. exact Ht.
Qed.

(** *** The cloud base *)

Lemma runs_dry (altitude : Q) (st : loopState) (pts : list Point.t) (d : Data.t) :
  runs M G ws altitude st pts d ->
  defaultGroundAbsoluteHumidity G == 0 ->
  Data.cloudBase d = Data.cloudBase (data st).
Proof.
  intros Hr Hdry.
  assert (Hsat : forall a t, saturated (levelOf M G a t) = false).
  { intros a t. unfold saturated, levelOf, getRelativeHumidity. simpl.
    destruct (Qle_bool 1.0 _) eqn:E; [|reflexivity].
    apply Qle_bool_iff in E. rewrite Hdry in E.
    unfold Qdiv in E. rewrite Qmult_0_l in E. lra. }
  induction Hr as [a st Hge|a st st' Hlt Hb|a st st' pts d Hlt Hb _ IH].
  - reflexivity.
  - destruct (body_Ok M G ws _ _ _ _ Hb) as (t & _ & _ & E & _).
    rewrite E. unfold cloudBase_after. rewrite Hsat. reflexivity.
  - destruct (body_Ok M G ws _ _ _ _ Hb) as (t & _ & _ & E & _).
    rewrite IH, E. unfold cloudBase_after. rewrite Hsat. reflexivity.
Qed.

(** X10.  With a ground absolute humidity of zero no pass is saturated:
    [cloudBase] stays [calculationsMaxHeight]. *)
Theorem dry_run_has_no_cloudBase (fuel : nat) (d : Data.t) :
  getThermalData_within M G fuel ws = Some (Ok d) ->
  defaultGroundAbsoluteHumidity G == 0 ->
  Data.cloudBase d = calculationsMaxHeight.
Proof.
  intros H Hdry.
  destruct (getThermalData_runs M G ws fuel d H) as (t0 & _ & Hr).
  exact (runs_dry _ _ _ _ Hr Hdry).
Qed.




(** *** The impulse *)

Lemma body_inversion_cost (altitude t : Q) (st st' : loopState) (b : bool) :
  body M G ws altitude st = Ok (st', b) ->
  getTemperatureAt altitude ws = Ok t ->
  0 < calculationResolution G ->
  Level.alt (prev st) <= altitude ->
  Level.temp (prev st) <= t ->
  impulse st' <= impulse st - 0.39.
Proof.
  intros Hb Ht Hres Ha Htemp.
  destruct (body_Ok M G ws _ _ _ _ Hb) as (t' & Ht' & Hi & _).
  rewrite Ht in Ht'. injection Ht' as <-. rewrite Hi.
  unfold increment, compensationMulti, compensationOffset, gradient.
  simpl Level.temp. simpl Level.alt.
  set (g := (t - Level.temp (prev st)) * (calculationResolution G / 100.0)).
  assert (Hg : 0 <= g).
  { unfold g. apply Qmult_le_0_compat; [lra|].
    apply Qle_shift_div_l; lra. }
  assert (Hm : Qltb g 0.0 = false) by (apply Qltb_ge; lra).
  rewrite Hm. clearbody g.
  set (o := (altitude - Level.alt (prev st)) * (condensationCompensation / 100.0)).
  assert (Ho : 0 <= o).
  { unfold o. apply Qmult_le_0_compat; [lra|]. unfold Qle. simpl. lia. }
  clearbody o.
  unfold thermalStagnantGradient, thermalImpulseTangentRatio, inversionCompensation.
  match goal with |- context [if ?c then _ else _] => destruct c end; lra.
Qed.

(** X12.  A pass through a layer that does not cool with height (the
    temperature read is at least the previous one) takes at least 0.39 off
    the impulse, whatever the cloud base. *)
Theorem inversion_pass_costs_impulse (altitude t : Q) (st st' : loopState) (b : bool) :
  body M G ws altitude st = Ok (st', b) ->
  getTemperatureAt altitude ws = Ok t ->
  0 < calculationResolution G ->
  Level.alt (prev st) <= altitude ->
  Level.temp (prev st) <= t ->
  impulse st' <= impulse st - 0.39.
Proof.
  intros Hb Ht Hres Ha Htemp.
  exact (body_inversion_cost altitude t st st' b Hb Ht Hres Ha Htemp).
Qed.

(** X13.  On a pass below the cloud base the impulse does not fall when
    the temperature gradient of the step is at or below
    [thermalStagnantGradient], and does not grow when the gradient is at or
    above it. *)
Theorem impulse_follows_gradient (altitude t : Q) (st st' : loopState) (b : bool) :
  body M G ws altitude st = Ok (st', b) ->
  getTemperatureAt altitude ws = Ok t ->
  altitude < Data.cloudBase (data st') ->
  ((t - Level.temp (prev st)) * (calculationResolution G / 100.0)
   <= thermalStagnantGradient ->
   impulse st <= impulse st')
  /\ (thermalStagnantGradient
      <= (t - Level.temp (prev st)) * (calculationResolution G / 100.0) ->
      impulse st' <= impulse st).
Proof.
  intros Hb Ht Hbelow.
  destruct (body_Ok M G ws _ _ _ _ Hb) as (t' & Ht' & Hi & Hcb & _).
  rewrite Ht in Ht'. injection Ht' as <-. rewrite Hi. rewrite Hcb in Hbelow.
  unfold increment, compensationMulti, compensationOffset, gradient.
  simpl Level.temp. simpl Level.alt.
  set (g := (t - Level.temp (prev st)) * (calculationResolution G / 100.0)).
  apply Qltb_lt in Hbelow. rewrite Hbelow. clearbody g.
  unfold thermalStagnantGradient, thermalImpulseTangentRatio, inversionCompensation.
  destruct (Qltb g 0.0) eqn:E; order_facts; split; intros; lra.
Qed.



End Runs.

(** * Properties of the display helpers *)

Lemma Math_round_bounds (x : Q) : x - 0.5 < Math_round x /\ Math_round x <= x + 0.5.
Proof.
  unfold Math_round. split.
  - pose proof (Qlt_floor (x + 0.5)) as H.
    rewrite inject_Z_plus in H. change (inject_Z 1) with 1 in H. lra.
  - apply Qfloor_le.
Qed.

Lemma Math_round_mono (x y : Q) : x <= y -> Math_round x <= Math_round y.
Proof.
  intros H. unfold Math_round. rewrite <- Zle_Qle. apply Qfloor_resp_le. lra.
Qed.

Lemma Math_round_integer (z : Z) : Math_round (inject_Z z) = inject_Z z.
Proof.
  unfold Math_round. f_equal.
  assert (H1 : (z <= Qfloor (inject_Z z + 0.5))%Z).
  { rewrite <- (Qfloor_Z z) at 1. apply Qfloor_resp_le. lra. }
  assert (H2 : (Qfloor (inject_Z z + 0.5) < z + 1)%Z).
  { rewrite Zlt_Qlt. eapply Qle_lt_trans; [apply Qfloor_le|].
    rewrite inject_Z_plus. change (inject_Z 1) with 1. lra. }
  lia.
Qed.

Lemma Math_round_step (x y : Q) : x + 1 <= y -> Math_round x + 1 <= Math_round y.
Proof.
  intros H. unfold Math_round.
  change 1 with (inject_Z 1) at 1. rewrite <- inject_Z_plus, <- Zle_Qle.
  assert (Hlt : (Qfloor (x + 0.5) < Qfloor (y + 0.5) + 1)%Z).
  { rewrite Zlt_Qlt.
    eapply Qle_lt_trans; [apply Qfloor_le|].
    eapply Qle_lt_trans; [|apply Qlt_floor]. lra. }
  assert (Hne : (Qfloor (x + 0.5) + 1 <= Qfloor (y + 0.5))%Z).
  { rewrite <- (Qfloor_Z (Qfloor (x + 0.5) + 1)). apply Qfloor_resp_le.
    rewrite inject_Z_plus. change (inject_Z 1) with 1.
    pose proof (Qfloor_le (x + 0.5)). lra. }
  exact Hne.
Qed.

Lemma Math_round_between (lo hi : Z) (x : Q) :
  inject_Z lo <= x -> x <= inject_Z hi ->
  inject_Z lo <= Math_round x /\ Math_round x <= inject_Z hi.
Proof.
  intros Hlo Hhi.
  split.
  - rewrite <- (Math_round_integer lo). apply Math_round_mono. exact Hlo.
  - rewrite <- (Math_round_integer hi). apply Math_round_mono. exact Hhi.
Qed.

(** X15.  Every colour returned by [getRgbForTemp] has red within 0..255,
    green 0 and blue within 0..190, and a warmer temperature never gives less
    red or more blue. *)
Theorem getRgbForTemp_range_and_order (t1 t2 : Q) :
  t1 <= t2 ->
  (0 <= Rgb.r (getRgbForTemp t1) /\ Rgb.r (getRgbForTemp t1) <= 255
   /\ Rgb.g (getRgbForTemp t1) = 0
   /\ 0 <= Rgb.b (getRgbForTemp t1) /\ Rgb.b (getRgbForTemp t1) <= 190)
  /\ Rgb.r (getRgbForTemp t1) <= Rgb.r (getRgbForTemp t2)
  /\ Rgb.b (getRgbForTemp t2) <= Rgb.b (getRgbForTemp t1).
Proof.
  intros H12.
  assert (Hred : forall t, minTemp <= t -> t <= maxTemp ->
             0 <= Math_round (((t - minTemp) * maxRed) / (maxTemp - minTemp))
             /\ Math_round (((t - minTemp) * maxRed) / (maxTemp - minTemp)) <= 255).
  { intros t Hlo Hhi. unfold minTemp, maxTemp, maxRed in *.
    apply (Math_round_between 0 255).
    - apply Qle_shift_div_l; [reflexivity|]. change (inject_Z 0) with 0. lra.
    - apply Qle_shift_div_r; [reflexivity|]. change (inject_Z 255) with 255. lra. }
  assert (Hblue : forall t, minTemp <= t -> t <= maxTemp ->
             0 <= Math_round (((maxTemp - t) * maxBlue) / (maxTemp - minTemp))
             /\ Math_round (((maxTemp - t) * maxBlue) / (maxTemp - minTemp)) <= 190).
  { intros t Hlo Hhi. unfold minTemp, maxTemp, maxBlue in *.
    apply (Math_round_between 0 190).
    - apply Qle_shift_div_l; [reflexivity|]. change (inject_Z 0) with 0. lra.
    - apply Qle_shift_div_r; [reflexivity|]. change (inject_Z 190) with 190. lra. }
  assert (Hmono : forall a b : Q, a <= b ->
             Math_round (((a - minTemp) * maxRed) / (maxTemp - minTemp))
             <= Math_round (((b - minTemp) * maxRed) / (maxTemp - minTemp))
             /\ Math_round (((maxTemp - b) * maxBlue) / (maxTemp - minTemp))
                <= Math_round (((maxTemp - a) * maxBlue) / (maxTemp - minTemp))).
  { intros a b Hab. unfold minTemp, maxTemp, maxRed, maxBlue.
    split; apply Math_round_mono; unfold Qdiv;
      apply Qmult_le_compat_r; try lra; unfold Qle; simpl; lia. }
  unfold getRgbForTemp. cbv zeta.
  destruct (Qltb t1 minTemp) eqn:E1; destruct (Qltb t2 minTemp) eqn:E2;
    destruct (Qltb maxTemp t1) eqn:E3; destruct (Qltb maxTemp t2) eqn:E4;
    order_facts; unfold minTemp, maxTemp in *; simpl Rgb.r; simpl Rgb.g; simpl Rgb.b;
    try lra;
    try (destruct (Hred t1) as [? ?]; [unfold minTemp; lra|unfold maxTemp; lra|]);
    try (destruct (Hblue t1) as [? ?]; [unfold minTemp; lra|unfold maxTemp; lra|]);
    try (destruct (Hred t2) as [? ?]; [unfold minTemp; lra|unfold maxTemp; lra|]);
    try (destruct (Hblue t2) as [? ?]; [unfold minTemp; lra|unfold maxTemp; lra|]);
    try (destruct (Hmono t1 t2 H12) as [? ?]);
    unfold maxRed, maxBlue, minTemp, maxTemp in *;
    repeat split; try reflexivity; try assumption; try lra.
Qed.

(** X16.  For a humidity that is not negative [getRgbForHumi] returns a
    pure blue: red and green 0, blue within 0..255, and more humidity never
    gives less blue. *)
Theorem getRgbForHumi_range_and_order (h1 h2 : Q) :
  0 <= h1 -> h1 <= h2 ->
  Rgb.r (getRgbForHumi h1) = 0 /\ Rgb.g (getRgbForHumi h1) = 0
  /\ 0 <= Rgb.b (getRgbForHumi h1)
  /\ Rgb.b (getRgbForHumi h1) <= Rgb.b (getRgbForHumi h2)
  /\ Rgb.b (getRgbForHumi h2) <= 255.
Proof.
  intros H0 H12.
  assert (Hb : forall h, 0 <= h -> h <= 100 ->
             0 <= Math_round ((h * 255) / 100) /\ Math_round ((h * 255) / 100) <= 255).
  { intros h Hlo Hhi. apply (Math_round_between 0 255).
    - apply Qle_shift_div_l; [reflexivity|]. change (inject_Z 0) with 0. lra.
    - apply Qle_shift_div_r; [reflexivity|]. change (inject_Z 255) with 255. lra. }
  assert (Hmono : Math_round ((h1 * 255) / 100) <= Math_round ((h2 * 255) / 100)).
  { apply Math_round_mono. unfold Qdiv. apply Qmult_le_compat_r; [lra|].
    unfold Qle. simpl. lia. }
  unfold getRgbForHumi.
  destruct (Qltb h1 0) eqn:E1; destruct (Qltb h2 0) eqn:E2;
    destruct (Qltb 100 h1) eqn:E3; destruct (Qltb 100 h2) eqn:E4;
    order_facts; simpl Rgb.r; simpl Rgb.g; simpl Rgb.b; try lra;
    try (destruct (Hb h1) as [? ?]; [lra|lra|]);
    try (destruct (Hb h2) as [? ?]; [lra|lra|]);
    repeat split; try reflexivity; try assumption; try lra.
Qed.


Lemma Math_round_comp (x y : Q) : x == y -> Math_round x = Math_round y.
Proof.
  intros H. unfold Math_round. f_equal. apply Qfloor_comp. rewrite H. reflexivity.
Qed.

Lemma roundToDecim_2 (M : MathLib) (num : Q) :
  roundToDecim M num 2 == Math_round ((num + 0.0001) * 100) / 100.
Proof.
  unfold roundToDecim.
  assert (H2 : Math_pow M 10 2 == 100) by reflexivity.
  assert (H4 : Math_pow M 10 (- (2) * 2) == 0.0001) by reflexivity.
  rewrite (Math_round_comp _ ((num + 0.0001) * 100)).
  - rewrite H2. reflexivity.
  - rewrite H2, H4. reflexivity.
Qed.

(** X18.  [roundToDecim(num, 2)] is a whole number of hundredths, not
    below [num - 0.005] and not above [num + 0.0052]; it never decreases as
    [num] grows; and a whole number of hundredths is returned as it is. *)
Theorem roundToDecim_near_and_monotone (M : MathLib) (num num' : Q) :
  num <= num' ->
  (exists k : Z, roundToDecim M num 2 == inject_Z k / 100)
  /\ num - 0.005 <= roundToDecim M num 2
  /\ roundToDecim M num 2 <= num + 0.0052
  /\ roundToDecim M num 2 <= roundToDecim M num' 2
  /\ forall k : Z, num == inject_Z k / 100 -> roundToDecim M num 2 == num.
Proof.
  intros Hle. rewrite (roundToDecim_2 M num), (roundToDecim_2 M num').
  destruct (Math_round_bounds ((num + 0.0001) * 100)) as [Hlo Hhi].
  split; [|split; [|split; [|split]]].
  - exists (Qfloor ((num + 0.0001) * 100 + 0.5)). reflexivity.
  - apply Qle_shift_div_l; [reflexivity|]. lra.
  - apply Qle_shift_div_r; [reflexivity|]. lra.
  - unfold Qdiv. apply Qmult_le_compat_r; [|unfold Qle; simpl; lia].
    apply Math_round_mono. lra.
  - intros k Hk.
    assert (E : Math_round ((num + 0.0001) * 100) = inject_Z k).
    { unfold Math_round. f_equal.
      assert (Hx : (num + 0.0001) * 100 + 0.5 == inject_Z k + 0.51)
        by (rewrite Hk; field).
      rewrite (Qfloor_comp _ _ Hx).
      assert (H1 : (k <= Qfloor (inject_Z k + 0.51))%Z).
      { rewrite <- (Qfloor_Z k) at 1. apply Qfloor_resp_le. lra. }
      assert (H2 : (Qfloor (inject_Z k + 0.51) < k + 1)%Z).
      { rewrite Zlt_Qlt. eapply Qle_lt_trans; [apply Qfloor_le|].
        rewrite inject_Z_plus. change (inject_Z 1) with 1. lra. }
      lia. }
    rewrite roundToDecim_2, E, Hk. reflexivity.
Qed.

(** * Properties of the gauges *)

Lemma last_cons_default (l : list Meteo.t) (x y : Meteo.t) :
  last (y :: l) x = last l y.
Proof.
  revert x y. induction l as [|t l IH]; intros x y; [reflexivity|].
  change (last (y :: t :: l) x) with (last (t :: l) x).
  rewrite (IH x t), (IH y t). reflexivity.
Qed.

Lemma ascending_le_last (l : list Meteo.t) (x : Meteo.t) :
  ascending (x :: l) ->
  Forall (fun y => Meteo.alt y <= Meteo.alt (last l x)) (x :: l).
Proof.
  revert x. induction l as [|y l IH]; intros x Hs.
  - repeat constructor. simpl. lra.
  - inversion Hs as [|? ? Hs' Hall]; subst.
    specialize (IH y Hs'). rewrite last_cons_default.
    constructor; [|exact IH].
    inversion IH as [|? ? Hy _]; subst. inversion Hall; subst. lra.
Qed.

Lemma ascending_snoc (l : list Meteo.t) (c : Meteo.t) :
  ascending l -> Forall (fun y => Meteo.alt y < Meteo.alt c) l ->
  ascending (l ++ [c]).
Proof.
  induction 1 as [|x l Hs IH Hall]; intros Hc; simpl.
  - repeat constructor.
  - inversion Hc; subst. constructor; [apply IH; assumption|].
    apply Forall_app. split; [exact Hall|]. repeat constructor. assumption.
Qed.

Lemma topmost_snoc (l : list Meteo.t) (c : Meteo.t) : topmost (l ++ [c]) = Some c.
Proof.
  destruct l as [|x l]; [reflexivity|]. simpl. rewrite last_last. reflexivity.
Qed.

(** A write at an altitude that has a sample (helper for the properties
    that compose writes). *)
Lemma setDataAt_in_place (M : MathLib) (G : Globals) (ws : weatherStack)
      (s : Meteo.t) (altitude : Q) (f : fieldName) (value : Q) :
  ascending ws -> In s ws -> Meteo.alt s == altitude ->
  exists ws',
    setDataAt M G altitude f value ws = (Ok tt, ws')
    /\ map Meteo.alt ws' = map Meteo.alt ws.
Proof.
  intros Hs Hin Heq. destruct (in_split _ _ Hin) as (l1 & l2 & ->).
  exists (l1 ++ set_field s f value :: l2). unfold setDataAt.
  rewrite (setDataAt_loop_exact altitude f value l1 l2 s Hs Heq).
  split; [reflexivity|].
  rewrite !map_app. simpl. rewrite set_field_alt. reflexivity.
Qed.

Section Rebuilding.

Context (M : MathLib) (G : Globals) (D : Display) (ws : weatherStack).

(** The samples pushed by the passes from [i] on. *)
Inductive gauged : Z -> list Meteo.t -> Prop :=
| gauged_nil i : ~ inject_Z i <= measureLineCnt D -> gauged i []
| gauged_cons i m ms :
    inject_Z i <= measureLineCnt D ->
    gauge M G D ws i = Ok m ->
    gauged (i + 1) ms ->
    gauged i (m :: ms).

Lemma reCreateGauges_loop_Ok (fuel : nat) :
  forall i acc l,
    reCreateGauges_loop M G D fuel ws i acc = Some (Ok l) ->
    exists ms, l = acc ++ ms /\ gauged i ms.
Proof.
  induction fuel as [|fuel IH]; intros i acc l; simpl;
    destruct (Qle_bool (inject_Z i) (measureLineCnt D)) eqn:E; try discriminate.
  - intros H. inversion H; subst. exists []. rewrite app_nil_r. split; [reflexivity|].
    constructor. intros Hle. apply Qle_bool_iff in Hle. congruence.
  - destruct (gauge M G D ws i) as [m|e] eqn:Hg; [|discriminate].
    intros H. destruct (IH _ _ _ H) as (ms & -> & Hms).
    exists (m :: ms). rewrite <- app_assoc. split; [reflexivity|].
    apply Qle_bool_iff in E. constructor; assumption.
  - intros H. inversion H; subst. exists []. rewrite app_nil_r. split; [reflexivity|].
    constructor. intros Hle. apply Qle_bool_iff in Hle. congruence.
Qed.

Lemma gauge_alt (i : Z) (m : Meteo.t) :
  gauge M G D ws i = Ok m ->
  Meteo.alt m = Math_round (inject_Z i * altimeterResolution D).
Proof.
  unfold gauge. cbv zeta.
  destruct (getTemperatureAt _ ws); simpl rbind; [|discriminate].
  destruct (getWindAt _ ws); simpl rbind; [|discriminate].
  destruct (getAbsoluteHumidityAt _ ws); simpl rbind; [|discriminate].
  intros H. inversion H. reflexivity.
Qed.

Lemma gauged_has (i : Z) (ms : list Meteo.t) :
  gauged i ms ->
  forall j, (i <= j)%Z -> inject_Z j <= measureLineCnt D ->
            exists m, In m ms /\ gauge M G D ws j = Ok m.
Proof.
  induction 1 as [i Hn|i m ms Hle Hg _ IH]; intros j Hij Hj.
  - exfalso. apply Hn. eapply Qle_trans; [|exact Hj]. rewrite <- Zle_Qle. exact Hij.
  - destruct (Z.eq_dec i j) as [->|Hne].
    + exists m. split; [left; reflexivity|exact Hg].
    + destruct (IH j ltac:(lia) Hj) as (m' & Hin & Hm'). exists m'.
      split; [right; exact Hin|exact Hm'].
Qed.

Lemma gauged_ascending (i : Z) (ms : list Meteo.t) :
  1 <= altimeterResolution D ->
  gauged i ms ->
  ascending ms
  /\ Forall (fun m => Math_round (inject_Z i * altimeterResolution D) <= Meteo.alt m) ms.
Proof.
  intros Har. induction 1 as [i Hn|i m ms Hle Hg _ [IHs IHf]].
  - split; constructor.
  - pose proof (gauge_alt _ _ Hg) as Hm.
    assert (Hstep : Math_round (inject_Z i * altimeterResolution D) + 1
                    <= Math_round (inject_Z (i + 1) * altimeterResolution D)).
    { apply Math_round_step. rewrite inject_Z_plus. change (inject_Z 1) with 1. lra. }
    split.
    + constructor; [exact IHs|].
      eapply Forall_impl; [|exact IHf]. intros x Hx. simpl in Hx. rewrite Hm. lra.
    + constructor; [rewrite Hm; lra|].
      eapply Forall_impl; [|exact IHf]. intros x Hx. simpl in Hx. lra.
Qed.

(** What a rebuild that succeeds leaves as the stack. *)
Lemma reCreateGauges_Ok (fuel : nat) (ws' : weatherStack) :
  reCreateGauges_within M G D fuel ws = Some (Ok tt, ws') ->
  exists ms top,
    gauged 0 ms /\ topmost ms = Some top
    /\ (ws' = ms /\ calculationsMaxHeight <= Meteo.alt top
        \/ exists c, ws' = ms ++ [c]
                     /\ Meteo.alt top < calculationsMaxHeight
                     /\ AutoMeteoData M G calculationsMaxHeight ws = Ok c).
Proof.
  unfold reCreateGauges_within.
  destruct (reCreateGauges_loop M G D fuel ws 0 []) as [[l|e]|] eqn:Hl; try discriminate.
  destruct (reCreateGauges_loop_Ok _ _ _ _ Hl) as (ms & -> & Hms). simpl.
  destruct (topmost ms) as [top|] eqn:Ht; [|discriminate].
  destruct (Qltb (Meteo.alt top) calculationsMaxHeight) eqn:E; order_facts.
  - destruct (AutoMeteoData M G calculationsMaxHeight ws) as [c|e] eqn:Hc; [|discriminate].
    intros H. injection H as <-. exists ms, top.
    split; [exact Hms|]. split; [exact Ht|]. right. exists c. repeat split; assumption.
  - intros H. injection H as <-. exists ms, top.
    split; [exact Hms|]. split; [exact Ht|]. left. split; [reflexivity|assumption].
Qed.

Lemma AutoMeteoData_alt (altitude : Q) (c : Meteo.t) :
  AutoMeteoData M G altitude ws = Ok c -> Meteo.alt c = altitude.
Proof.
  unfold AutoMeteoData.
  destruct (getTemperatureAt altitude ws); simpl rbind; [|discriminate].
  destruct (getWindAt altitude ws); simpl rbind; [|discriminate].
  destruct (getAbsoluteHumidityAt altitude ws); simpl rbind; [|discriminate].
  destruct (getDewPointAt M G altitude ws); simpl rbind; [|discriminate].
  intros H. inversion H. reflexivity.
Qed.

(** X19.  When [maxShownAltitude / altimeterResolution] is negative the
    loop of [reCreateGauges] makes no pass, the read of the topmost new
    sample raises, and [weatherStack] keeps the old stack. *)
Theorem reCreateGauges_without_gauges (fuel : nat) :
  measureLineCnt D < 0 ->
  reCreateGauges_within M G D fuel ws = Some (Throw TypeError, ws).
Proof.
  intros Hneg. unfold reCreateGauges_within.
  assert (E : Qle_bool (inject_Z 0) (measureLineCnt D) = false).
  { destruct (Qle_bool (inject_Z 0) (measureLineCnt D)) eqn:E; [|reflexivity].
    apply Qle_bool_iff in E. change (inject_Z 0) with 0 in E. lra. }
  destruct fuel; simpl; rewrite E; reflexivity.
Qed.

(** X20.  With an [altimeterResolution] that is not zero (the quotient
    [maxShownAltitude / altimeterResolution] is then a number), a rebuild that
    succeeds leaves a stack whose topmost sample is at or above
    [calculationsMaxHeight], and which holds a sample at the altitude of every
    gauge, [Math.round(i * altimeterResolution)] for every [i] from 0 with
    [i <= maxShownAltitude / altimeterResolution]. *)
Theorem reCreateGauges_ceiling_and_gauges (fuel : nat) (ws' : weatherStack) :
  ~ altimeterResolution D == 0 ->
  reCreateGauges_within M G D fuel ws = Some (Ok tt, ws') ->
  (exists top, topmost ws' = Some top /\ calculationsMaxHeight <= Meteo.alt top)
  /\ forall i, (0 <= i)%Z -> inject_Z i <= measureLineCnt D ->
       exists s, In s ws'
                 /\ Meteo.alt s = Math_round (inject_Z i * altimeterResolution D).
Proof.
  intros _ H.
  destruct (reCreateGauges_Ok _ _ H) as (ms & top & Hms & Htop & Hcase).
  split.
  - destruct Hcase as [[-> Hge]|(c & -> & _ & Hc)].
    + exists top. split; assumption.
    + exists c. split; [apply topmost_snoc|].
      rewrite (AutoMeteoData_alt _ _ Hc). lra.
  - intros i Hi Hle. destruct (gauged_has _ _ Hms i Hi Hle) as (m & Hin & Hg).
    exists m. split; [|exact (gauge_alt _ _ Hg)].
    destruct Hcase as [[-> _]|(c & -> & _)]; [exact Hin|].
    apply in_or_app. left. exact Hin.
Qed.

Lemma reCreateGauges_ascending (fuel : nat) (ws' : weatherStack) :
  1 <= altimeterResolution D ->
  reCreateGauges_within M G D fuel ws = Some (Ok tt, ws') ->
  ascending ws'.
Proof.
  intros Har H.
  destruct (reCreateGauges_Ok _ _ H) as (ms & top & Hms & Htop & Hcase).
  destruct (gauged_ascending _ _ Har Hms) as [Hs _].
  destruct Hcase as [[-> _]|(c & -> & Hlt & Hc)]; [exact Hs|].
  apply ascending_snoc; [exact Hs|].
  destruct ms as [|x l]; [discriminate|]. simpl in Htop. injection Htop as <-.
  eapply Forall_impl; [|exact (ascending_le_last l x Hs)].
  intros y Hy. simpl in Hy. rewrite (AutoMeteoData_alt _ _ Hc). lra.
Qed.

(** X21.  With an [altimeterResolution] of at least 1 a rebuild that
    succeeds leaves an ascending stack, and a write at the altitude of any
    gauge then assigns the sample that is there: it succeeds and the
    altitudes of the stack, their number and their order stay as they
    are. *)
Theorem reCreateGauges_then_setDataAt (fuel : nat) (ws' : weatherStack)
        (i : Z) (f : fieldName) (value : Q) :
  1 <= altimeterResolution D ->
  reCreateGauges_within M G D fuel ws = Some (Ok tt, ws') ->
  (0 <= i)%Z -> inject_Z i <= measureLineCnt D ->
  ascending ws'
  /\ exists ws'',
      setDataAt M G (Math_round (inject_Z i * altimeterResolution D)) f value ws'
      = (Ok tt, ws'')
      /\ map Meteo.alt ws'' = map Meteo.alt ws'
      /\ ascending ws''.
Proof.
  intros Har H Hi Hle.
  pose proof (reCreateGauges_ascending _ _ Har H) as Hs.
  split; [exact Hs|].
  destruct (reCreateGauges_Ok _ _ H) as (ms & top & Hms & _ & Hcase).
  destruct (gauged_has _ _ Hms i Hi Hle) as (m & Hin & Hg).
  assert (Hin' : In m ws').
  { destruct Hcase as [[-> _]|(c & -> & _)]; [exact Hin|].
    apply in_or_app. left. exact Hin. }
  destruct (setDataAt_in_place M G ws' m
              (Math_round (inject_Z i * altimeterResolution D)) f value Hs Hin')
    as (ws'' & Hset & Hmap).
  - rewrite (gauge_alt _ _ Hg). reflexivity.
  - exists ws''. split; [exact Hset|]. split; [exact Hmap|].
    apply (ascending_same_alts ws'); [symmetry; exact Hmap|exact Hs].
Qed.

Lemma reCreateGauges_loop_succeeds (fuel : nat) :
  (forall j, (0 <= j)%Z -> inject_Z j <= measureLineCnt D ->
             exists m, gauge M G D ws j = Ok m) ->
  forall i acc,
    (0 <= i)%Z ->
    measureLineCnt D < inject_Z (i + Z.of_nat fuel) ->
    exists l, reCreateGauges_loop M G D fuel ws i acc = Some (Ok l).
Proof.
  intros Hg. induction fuel as [|fuel IH]; intros i acc Hi Hc; simpl;
    destruct (Qle_bool (inject_Z i) (measureLineCnt D)) eqn:E;
    try (eexists; reflexivity); apply Qle_bool_iff in E.
  - rewrite Z.add_0_r in Hc. lra.
  - destruct (Hg i Hi E) as [m ->]. apply IH; [lia|].
    replace (i + 1 + Z.of_nat fuel)%Z with (i + Z.of_nat (S fuel))%Z by lia.
    exact Hc.
Qed.

Lemma gaugePasses_suffice :
  measureLineCnt D < inject_Z (0 + Z.of_nat (gaugePasses D)).
Proof.
  unfold gaugePasses. eapply Qlt_le_trans; [apply Qlt_floor|].
  rewrite <- Zle_Qle. lia.
Qed.

Lemma AutoMeteoData_covered (altitude : Q) :
  ascending ws ->
  (exists s, In s ws /\ Meteo.alt s <= altitude) ->
  (exists s, In s ws /\ altitude <= Meteo.alt s) ->
  exists c, AutoMeteoData M G altitude ws = Ok c.
Proof.
  intros Hs Hlo Hhi. unfold AutoMeteoData, getDewPointAt, getTemperatureAt,
    getWindAt, getAbsoluteHumidityAt.
  destruct (getDataAt_covered altitude temp ws Hs Hlo Hhi) as [t ->].
  destruct (getDataAt_covered altitude wind ws Hs Hlo Hhi) as [w ->].
  destruct (getDataAt_covered altitude humidity ws Hs Hlo Hhi) as [h ->].
  simpl. eexists; reflexivity.
Qed.

(** X22.  [reCreateGauges] succeeds on an ascending stack that has a
    sample at or below the ground and a sample at or above both
    [calculationsMaxHeight] and [maxShownAltitude + 0.5], when
    [altimeterResolution] is positive and [maxShownAltitude] is not
    negative. *)
Theorem reCreateGauges_succeeds :
  0 < altimeterResolution D -> 0 <= maxShownAltitude D ->
  ascending ws ->
  (exists s, In s ws /\ Meteo.alt s <= 0) ->
  (exists s, In s ws /\ calculationsMaxHeight <= Meteo.alt s
                    /\ maxShownAltitude D + 0.5 <= Meteo.alt s) ->
  exists ws', reCreateGauges M G D ws = Some (Ok tt, ws').
Proof.
  intros Har Hmax Hs (lo & Hlo & Hlo0) (hi & Hhi & Hhimax & Hhishown).
  assert (Hcnt : 0 <= measureLineCnt D).
  { unfold measureLineCnt. apply Qle_shift_div_l; [exact Har|]. lra. }
  assert (Hg : forall j, (0 <= j)%Z -> inject_Z j <= measureLineCnt D ->
                         exists m, gauge M G D ws j = Ok m).
  { intros j Hj Hle.
    assert (Hj' : 0 <= inject_Z j) by (rewrite <- (Zle_Qle 0); exact Hj).
    assert (Hup : inject_Z j * altimeterResolution D <= maxShownAltitude D).
    { unfold measureLineCnt in Hle.
      assert (E : maxShownAltitude D
                  == maxShownAltitude D / altimeterResolution D * altimeterResolution D)
        by (field; lra).
      rewrite E. apply Qmult_le_compat_r; [exact Hle|lra]. }
    destruct (Math_round_bounds (inject_Z j * altimeterResolution D)) as [_ Hr].
    assert (Hlow : 0 <= Math_round (inject_Z j * altimeterResolution D)).
    { change 0 with (inject_Z 0) at 1. rewrite <- (Math_round_integer 0).
      apply Math_round_mono. change (inject_Z 0) with 0. nra. }
    set (a := Math_round (inject_Z j * altimeterResolution D)) in *.
    assert (Hcl : exists s, In s ws /\ Meteo.alt s <= a)
      by (exists lo; split; [exact Hlo|lra]).
    assert (Hch : exists s, In s ws /\ a <= Meteo.alt s)
      by (exists hi; split; [exact Hhi|lra]).
    unfold gauge. cbv zeta. fold a.
    unfold getTemperatureAt, getWindAt, getAbsoluteHumidityAt.
    destruct (getDataAt_covered a temp ws Hs Hcl Hch) as [t ->].
    destruct (getDataAt_covered a wind ws Hs Hcl Hch) as [w ->].
    destruct (getDataAt_covered a humidity ws Hs Hcl Hch) as [h ->].
    simpl. eexists; reflexivity. }
  unfold reCreateGauges, reCreateGauges_within.
  destruct (reCreateGauges_loop_succeeds (gaugePasses D) Hg 0 [] ltac:(lia)
              gaugePasses_suffice) as [l Hl].
  rewrite Hl. destruct (reCreateGauges_loop_Ok _ _ _ _ Hl) as (ms & -> & Hms). simpl.
  destruct ms as [|m ms].
  - inversion Hms as [i Hn|]; subst. exfalso. apply Hn. change (inject_Z 0) with 0.
    exact Hcnt.
  - simpl topmost. cbv iota.
    destruct (Qltb (Meteo.alt (last ms m)) calculationsMaxHeight); [|eexists; reflexivity].
    destruct (AutoMeteoData_covered calculationsMaxHeight Hs) as [c ->].
    + exists lo. split; [exact Hlo|]. unfold calculationsMaxHeight. lra.
    + exists hi. split; [exact Hhi|exact Hhimax].
    + eexists; reflexivity.
Qed.

End Rebuilding.

(** * The further properties, evaluated *)

(** X1.  A temperature written at 2000 m into the initial stack is read
    back. *)
Lemma setDataAt_then_getDataAt_witness :
  exists ws',
    setDataAt decades initialGlobals 2000 temp 10 (initialStack decades initialGlobals)
    = (Ok tt, ws')
    /\ getDataAt 2000 temp ws' = Ok 10.
Proof.
  destruct (setDataAt decades initialGlobals 2000 temp 10
              (initialStack decades initialGlobals)) as [[[]|e] ws'] eqn:E.
  - exists ws'. split; [reflexivity|].
    apply (setDataAt_then_getDataAt decades initialGlobals
             (initialStack decades initialGlobals) ws' 2000 temp 10);
      [repeat constructor|exact E].
  - vm_compute in E. discriminate.
Defined.

(** X2.  The write at 2000 m makes the three samples four. *)
Lemma setDataAt_length_witness :
  exists ws',
    setDataAt decades initialGlobals 2000 temp 10 (initialStack decades initialGlobals)
    = (Ok tt, ws')
    /\ length ws' = 4%nat.
Proof.
  destruct (setDataAt decades initialGlobals 2000 temp 10
              (initialStack decades initialGlobals)) as [[[]|e] ws'] eqn:E.
  - exists ws'. split; [reflexivity|].
    rewrite (setDataAt_length decades initialGlobals
               (initialStack decades initialGlobals) ws' 2000 temp 10);
      [reflexivity|repeat constructor|exact E].
  - vm_compute in E. discriminate.
Defined.

(** X3.  Setting the temperature of the sample at 9500 m leaves the
    humidity read at 4750 m as it was. *)
Lemma setDataAt_existing_frame_witness :
  exists ws',
    setDataAt decades initialGlobals 9500 temp 0 (initialStack decades initialGlobals)
    = (Ok tt, ws')
    /\ ascending ws'
    /\ getDataAt 4750 humidity ws'
       = getDataAt 4750 humidity (initialStack decades initialGlobals).
Proof.
  destruct (setDataAt_existing_frame decades initialGlobals
              (initialStack decades initialGlobals)
              (MeteoData decades initialGlobals 9500
                 (defaultGroundTemperature - (9500 / 100.0) * defaultTemperatureGradient)
                 0.0 1.0)
              9500 temp 0)
    as (ws' & Hset & _ & Hs & Hframe).
  - repeat constructor.
  - right. left. reflexivity.
  - reflexivity.
  - exists ws'. split; [exact Hset|]. split; [exact Hs|].
    apply Hframe. discriminate.
Defined.

(** X4.  After the write at 2000 m the reads at 0 m and at 1000 m raise. *)
Lemma setDataAt_insert_hides_ground_witness :
  exists ws',
    setDataAt decades initialGlobals 2000 temp 10 (initialStack decades initialGlobals)
    = (Ok tt, ws')
    /\ getDataAt 0 temp ws' = Throw TypeError
    /\ getDataAt 1000 wind ws' = Throw TypeError.
Proof.
  destruct (setDataAt decades initialGlobals 2000 temp 10
              (initialStack decades initialGlobals)) as [[[]|e] ws'] eqn:E.
  - exists ws'. split; [reflexivity|].
    pose proof (setDataAt_insert_hides_ground decades initialGlobals
                  (MeteoData decades initialGlobals 0 defaultGroundTemperature 0.0
                     (defaultGroundAbsoluteHumidity initialGlobals))
                  (MeteoData decades initialGlobals 9500
                     (defaultGroundTemperature
                      - (9500 / 100.0) * defaultTemperatureGradient) 0.0 1.0)
                  [MeteoData decades initialGlobals calculationsMaxHeight (-20.0) 0.0 0.5]
                  ws' 2000 temp 10 ltac:(repeat constructor) ltac:(reflexivity)
                  ltac:(reflexivity) E) as H.
    split; apply H; reflexivity.
  - vm_compute in E. discriminate.
Defined.

(** X5.  The temperature read at 4750 m lies between those stored at 0 m
    and at 9500 m. *)
Lemma getDataAt_between_bounds_witness :
  exists v,
    getDataAt 4750 temp (initialStack decades initialGlobals) = Ok v
    /\ -41.5 <= v /\ v <= 25.
Proof.
  destruct (getDataAt_between_bounds []
              [MeteoData decades initialGlobals calculationsMaxHeight (-20.0) 0.0 0.5]
              (MeteoData decades initialGlobals 0 defaultGroundTemperature 0.0
                 (defaultGroundAbsoluteHumidity initialGlobals))
              (MeteoData decades initialGlobals 9500
                 (defaultGroundTemperature - (9500 / 100.0) * defaultTemperatureGradient)
                 0.0 1.0)
              4750 temp) as (v & Hv & _ & Hdown).
  - repeat constructor.
  - reflexivity.
  - reflexivity.
  - exists v. split; [exact Hv|].
    destruct Hdown as [H1 H2]; [vm_compute; discriminate|].
    split.
    + eapply Qle_trans; [|exact H1]. vm_compute. discriminate.
    + eapply Qle_trans; [exact H2|]. vm_compute. discriminate.
Defined.

(** X6.  The initial stack can be read at 5000 m and not at 10500 m. *)
Lemma getDataAt_succeeds_iff_covered_witness :
  (exists v, getDataAt 5000 temp (initialStack decades initialGlobals) = Ok v)
  /\ ~ (exists v, getDataAt 10500 temp (initialStack decades initialGlobals) = Ok v).
Proof.
  assert (Hs : ascending (initialStack decades initialGlobals)) by (repeat constructor).
  split.
  - apply (getDataAt_succeeds_iff_covered _ 5000 temp Hs). split.
    + eexists. split; [left; reflexivity|]. vm_compute. discriminate.
    + eexists. split; [right; left; reflexivity|]. vm_compute. discriminate.
  - intros H. apply (getDataAt_succeeds_iff_covered _ 10500 temp Hs) in H.
    destruct H as [_ (s & Hin & Hle)].
    destruct Hin as [<-|[<-|[<-|[]]]]; vm_compute in Hle; apply Hle; reflexivity.
Defined.

(** X7.  The dew point read at 9500 m of the initial stack is the one
    stored in its sample. *)
Lemma getDewPointAt_of_constructed_witness :
  getDewPointAt decades initialGlobals 9500 (initialStack decades initialGlobals)
  = Ok (Meteo.dewPoint
          (MeteoData decades initialGlobals 9500
             (defaultGroundTemperature - (9500 / 100.0) * defaultTemperatureGradient)
             0.0 1.0)).
Proof.
  apply getDewPointAt_of_constructed; [repeat constructor|].
  right. left. reflexivity.
Defined.

(** X8.  The empty stack, and a stack that starts at 500 m. *)
Lemma getThermalData_needs_ground_witness :
  getThermalData_within decades initialGlobals 100 [] = Some (Throw TypeError)
  /\ getThermalData_within decades initialGlobals 100
       [MeteoData decades initialGlobals 500 20 0.0 5.0;
        MeteoData decades initialGlobals calculationsMaxHeight (-20.0) 0.0 0.5]
     = Some (Throw TypeError).
Proof.
  split; apply getThermalData_needs_ground; left; repeat constructor.
Defined.

(** X9.  The run on the initial stack. *)
Lemma thermalTop_bounds_witness :
  returned
    (getThermalData_within decades initialGlobals 100
       (initialStack decades initialGlobals))
    (fun d =>
       Data.strength d <> []
       /\ 100 <= Data.thermalTop d /\ Data.thermalTop d <= calculationsMaxHeight).
Proof.
  apply returned_intro; [vm_compute; reflexivity|].
  intros d Hd.
  destruct (thermalTop_bounds decades initialGlobals
              (initialStack decades initialGlobals) 100 d Hd) as (Hmax & Hlow & _).
  - reflexivity.
  - destruct Hlow as [Hne Hge]; [reflexivity|].
    split; [exact Hne|]. split; [exact Hge|exact Hmax].
Defined.

(** X10.  The dry run on [unstableStack]. *)
Lemma dry_run_has_no_cloudBase_witness :
  returned
    (getThermalData_within decades dryGlobals 100 (unstableStack decades))
    (fun d => Data.cloudBase d = calculationsMaxHeight).
Proof.
  apply returned_intro; [vm_compute; reflexivity|].
  intros d Hd.
  apply (dry_run_has_no_cloudBase decades dryGlobals (unstableStack decades) 100 d Hd).
  reflexivity.
Defined.


(** X12.  The pass from 9500 m to 9600 m of the initial stack goes
    through the inversion under the top sample. *)
Lemma inversion_pass_costs_impulse_witness :
  exists st' b,
    body decades initialGlobals (initialStack decades initialGlobals) 9600
      (mkLoopState (Data.mk calculationsMaxHeight calculationsMaxHeight []) 1
         (levelOf decades initialGlobals 9500 (-41.5)))
    = Ok (st', b)
    /\ impulse st' <= 1 - 0.39.
Proof.
  destruct (body decades initialGlobals (initialStack decades initialGlobals) 9600
              (mkLoopState (Data.mk calculationsMaxHeight calculationsMaxHeight []) 1
                 (levelOf decades initialGlobals 9500 (-41.5))))
    as [[st' b]|e] eqn:E.
  - exists st', b. split; [reflexivity|].
    destruct (getTemperatureAt 9600 (initialStack decades initialGlobals))
      as [t|e] eqn:Et; [|vm_compute in Et; discriminate].
    apply (inversion_pass_costs_impulse decades initialGlobals
             (initialStack decades initialGlobals) 9600 t _ st' b E Et).
    + reflexivity.
    + vm_compute. discriminate.
    + vm_compute in Et. injection Et as <-. vm_compute. discriminate.
  - vm_compute in E. discriminate.
Defined.

(** X13.  The pass from the ground to 100 m of the initial stack cools by
    0.7 degrees. *)
Lemma impulse_follows_gradient_witness :
  exists st' b,
    body decades initialGlobals (initialStack decades initialGlobals) 100
      (mkLoopState (Data.mk calculationsMaxHeight calculationsMaxHeight []) 1
         (levelOf decades initialGlobals 0 25))
    = Ok (st', b)
    /\ 1 <= impulse st'.
Proof.
  destruct (body decades initialGlobals (initialStack decades initialGlobals) 100
              (mkLoopState (Data.mk calculationsMaxHeight calculationsMaxHeight []) 1
                 (levelOf decades initialGlobals 0 25)))
    as [[st' b]|e] eqn:E.
  - exists st', b. split; [reflexivity|].
    destruct (getTemperatureAt 100 (initialStack decades initialGlobals))
      as [t|e] eqn:Et; [|vm_compute in Et; discriminate].
    destruct (impulse_follows_gradient decades initialGlobals
                (initialStack decades initialGlobals) 100 t _ st' b E Et)
      as [Hgrow _].
    + vm_compute in E. injection E as <- <-. vm_compute. reflexivity.
    + apply Hgrow. vm_compute in Et. injection Et as <-. vm_compute. discriminate.
  - vm_compute in E. discriminate.
Defined.



(** X15.  0 and 20 degrees. *)
Lemma getRgbForTemp_range_and_order_witness :
  Rgb.r (getRgbForTemp 0) <= Rgb.r (getRgbForTemp 20)
  /\ Rgb.b (getRgbForTemp 20) <= Rgb.b (getRgbForTemp 0)
  /\ Rgb.r (getRgbForTemp 0) <= 255.
Proof.
  destruct (getRgbForTemp_range_and_order 0 20) as ((_ & Hr & _) & Hred & Hblue).
  - vm_compute. discriminate.
  - split; [exact Hred|]. split; [exact Hblue|exact Hr].
Defined.

(** X16.  30 and 120. *)
Lemma getRgbForHumi_range_and_order_witness :
  Rgb.b (getRgbForHumi 30) <= Rgb.b (getRgbForHumi 120)
  /\ Rgb.b (getRgbForHumi 120) <= 255.
Proof.
  destruct (getRgbForHumi_range_and_order 30 120) as (_ & _ & _ & Hmono & Hmax).
  - vm_compute. discriminate.
  - vm_compute. discriminate.
  - split; [exact Hmono|exact Hmax].
Defined.


(** X18.  8.105, the humidity read at 2000 m of the initial stack, and
    8.11. *)
Lemma roundToDecim_near_and_monotone_witness :
  8.105 - 0.005 <= roundToDecim decades 8.105 2
  /\ roundToDecim decades 8.105 2 <= 8.105 + 0.0052
  /\ roundToDecim decades 8.105 2 <= roundToDecim decades 8.11 2
  /\ roundToDecim decades 8.11 2 == 8.11.
Proof.
  destruct (roundToDecim_near_and_monotone decades 8.105 8.11)
    as (_ & Hlo & Hhi & Hmono & _); [vm_compute; discriminate|].
  destruct (roundToDecim_near_and_monotone decades 8.11 8.11)
    as (_ & _ & _ & _ & Hfix); [apply Qle_refl|].
  split; [exact Hlo|]. split; [exact Hhi|]. split; [exact Hmono|].
  apply (Hfix 811%Z). reflexivity.
Defined.

(** X19.  A negative [maxShownAltitude]. *)
Lemma reCreateGauges_without_gauges_witness :
  reCreateGauges decades initialGlobals negativeDisplay
    (initialStack decades initialGlobals)
  = Some (Throw TypeError, initialStack decades initialGlobals).
Proof.
  apply reCreateGauges_without_gauges. reflexivity.
Defined.

(** X22.  The first rebuild of the page: the initial stack with the
    initial display settings. *)
Lemma reCreateGauges_succeeds_witness :
  exists ws',
    reCreateGauges decades initialGlobals initialDisplay
      (initialStack decades initialGlobals)
    = Some (Ok tt, ws').
Proof.
  apply reCreateGauges_succeeds.
  - reflexivity.
  - vm_compute. discriminate.
  - repeat constructor.
  - eexists. split; [left; reflexivity|]. vm_compute. discriminate.
  - eexists. split; [right; right; left; reflexivity|].
    split; vm_compute; discriminate.
Defined.

(** X20.  The first rebuild of the page has a sample at 4000 m and its
    top at the ceiling. *)
Lemma reCreateGauges_ceiling_and_gauges_witness :
  match reCreateGauges_within decades initialGlobals initialDisplay 4
          (initialStack decades initialGlobals) with
  | Some (Ok _, ws') =>
      (exists top, topmost ws' = Some top /\ calculationsMaxHeight <= Meteo.alt top)
      /\ exists s, In s ws' /\ Meteo.alt s == 4000
  | _ => False
  end.
Proof.
  destruct (reCreateGauges_within decades initialGlobals initialDisplay 4
              (initialStack decades initialGlobals)) as [[[[]|e] ws']|] eqn:E;
    try (vm_compute in E; discriminate).
  destruct (reCreateGauges_ceiling_and_gauges decades initialGlobals initialDisplay
              (initialStack decades initialGlobals) 4 ws') as [Htop Hgauges].
  - vm_compute. discriminate.
  - exact E.
  - split; [exact Htop|].
    destruct (Hgauges 2%Z) as (s & Hin & Hs); [lia|vm_compute; discriminate|].
    exists s. split; [exact Hin|]. rewrite Hs. reflexivity.
Defined.

(** X21.  After the first rebuild of the page the gauge at 2000 m writes
    in place. *)
Lemma reCreateGauges_then_setDataAt_witness :
  match reCreateGauges_within decades initialGlobals initialDisplay 4
          (initialStack decades initialGlobals) with
  | Some (Ok _, ws') =>
      ascending ws'
      /\ exists ws'',
          setDataAt decades initialGlobals
            (Math_round (inject_Z 1 * altimeterResolution initialDisplay)) temp 12 ws'
          = (Ok tt, ws'')
          /\ length ws'' = length ws'
  | _ => False
  end.
Proof.
  destruct (reCreateGauges_within decades initialGlobals initialDisplay 4
              (initialStack decades initialGlobals)) as [[[[]|e] ws']|] eqn:E;
    try (vm_compute in E; discriminate).
  destruct (reCreateGauges_then_setDataAt decades initialGlobals initialDisplay
              (initialStack decades initialGlobals) 4 ws' 1 temp 12)
    as (Hs & ws'' & Hset & Hmap & _).
  - vm_compute. discriminate.
  - exact E.
  - lia.
  - vm_compute. discriminate.
  - split; [exact Hs|]. exists ws''. split; [exact Hset|].
    rewrite <- (length_map Meteo.alt ws''), Hmap, length_map. reflexivity.
Defined.

(** * Further properties of the formulas *)






(** X25.  Where the host's logarithm gives the decimal logarithm of the
    humidity in percent as 2 (saturated air), [getDewPoint] returns the
    temperature to within a millionth of a degree, for every temperature
    between -100 and 100 degrees. *)
Theorem getDewPoint_at_saturation_close (M : MathLib) (temperature relativeHumidity : Q) :
  Math_log M (relativeHumidity * 100) / Math_log M 10 == 2 ->
  -100 <= temperature -> temperature <= 100 ->
  temperature - 0.000001 <= getDewPoint M temperature relativeHumidity
  /\ getDewPoint M temperature relativeHumidity <= temperature + 0.000001.
Proof.
  intros Hlog Hlo Hhi.
  assert (E : getDewPoint M temperature relativeHumidity == temperature).
  { unfold getDewPoint. cbv zeta. rewrite Hlog.
    field. split; intros H; lra. }
  rewrite E. split; lra.
Qed.

(** X25.  Saturated air at 15 degrees, with the decimal logarithm at 100. *)
Lemma getDewPoint_at_saturation_close_witness :
  15 - 0.000001 <= getDewPoint decades 15 1
  /\ getDewPoint decades 15 1 <= 15 + 0.000001.
Proof.
  apply getDewPoint_at_saturation_close; [reflexivity|vm_compute; discriminate|vm_compute; discriminate].
Defined.

(** X23.  On an ascending stack with a sample at or below the ground and
    a sample at or above the ceiling, and with a positive
    [calculationResolution], [getThermalData] returns a result: no read
    raises and the loop ends. *)
Theorem getThermalData_total (M : MathLib) (G : Globals) (ws : weatherStack) :
  0 < calculationResolution G ->
  ascending ws ->
  (exists s, In s ws /\ Meteo.alt s <= 0) ->
  (exists s, In s ws /\ calculationsMaxHeight <= Meteo.alt s) ->
  exists d, getThermalData M G ws = Some (Ok d).
Proof.
  exact (getThermalData_returns M G ws).
Qed.

Lemma topmost_In (l : list Meteo.t) (t : Meteo.t) : topmost l = Some t -> In t l.
Proof.
  destruct l as [|x l]; [discriminate|]. simpl. intros H. injection H as <-.
  revert x. induction l as [|y l IH]; intros x; [left; reflexivity|].
  rewrite last_cons_default. right. apply IH.
Qed.

(** X26.  With an [altimeterResolution] of at least 1 and a positive
    [calculationResolution], the stack that a successful [reCreateGauges]
    leaves can be simulated: [getThermalData] returns on it. *)
Theorem reCreateGauges_then_getThermalData (M : MathLib) (G : Globals) (D : Display)
        (ws ws' : weatherStack) (fuel : nat) :
  1 <= altimeterResolution D ->
  0 < calculationResolution G ->
  reCreateGauges_within M G D fuel ws = Some (Ok tt, ws') ->
  exists d, getThermalData M G ws' = Some (Ok d).
Proof.
  intros Har Hres H.
  pose proof (reCreateGauges_ascending M G D ws fuel ws' Har H) as Hs.
  destruct (reCreateGauges_Ok M G D ws fuel ws' H) as (ms & top & Hms & Htop & Hcase).
  assert (Hsub : forall x, In x ms -> In x ws').
  { intros x Hx. destruct Hcase as [[-> _]|(c & -> & _)]; [exact Hx|].
    apply in_or_app. left. exact Hx. }
  apply getThermalData_returns; [exact Hres|exact Hs| |].
  - inversion Hms as [i Hn|i m ms' Hle Hg Hrest]; subst; [discriminate|].
    exists m. split; [apply Hsub; left; reflexivity|].
    rewrite (gauge_alt M G D ws _ _ Hg).
    rewrite (Math_round_comp _ (inject_Z 0)) by ring.
    rewrite Math_round_integer. change (inject_Z 0) with 0. lra.
  - destruct Hcase as [[-> Hge]|(c & -> & _ & Hc)].
    + exists top. split; [apply topmost_In; exact Htop|exact Hge].
    + exists c. split; [apply in_or_app; right; left; reflexivity|].
      rewrite (AutoMeteoData_alt M G ws _ _ Hc). lra.
Qed.

(** X23.  The initial stack. *)
Lemma getThermalData_total_witness :
  exists d,
    getThermalData decades initialGlobals (initialStack decades initialGlobals)
    = Some (Ok d).
Proof.
  apply getThermalData_total.
  - reflexivity.
  - repeat constructor.
  - eexists. split; [left; reflexivity|]. vm_compute. discriminate.
  - eexists. split; [right; right; left; reflexivity|]. vm_compute. discriminate.
Defined.

(** X26.  The stack left by the first rebuild of the page. *)
Lemma reCreateGauges_then_getThermalData_witness :
  match reCreateGauges_within decades initialGlobals initialDisplay 4
          (initialStack decades initialGlobals) with
  | Some (Ok _, ws') => exists d, getThermalData decades initialGlobals ws' = Some (Ok d)
  | _ => False
  end.
Proof.
  destruct (reCreateGauges_within decades initialGlobals initialDisplay 4
              (initialStack decades initialGlobals)) as [[[[]|e] ws']|] eqn:E;
    try (vm_compute in E; discriminate).
  apply (reCreateGauges_then_getThermalData decades initialGlobals initialDisplay
           (initialStack decades initialGlobals) ws' 4); [|reflexivity|exact E].
  vm_compute. discriminate.
Defined.
